(** * The agent workflow of [predictive_maintenance_agent/orchestrator.py]

    A shallow embedding of the orchestrator: the role-to-tool allow-list
    [ALLOWED_TOOLS], the access wrapper [ueba_security_wrapper], the tools
    the agents call, the agent nodes, the decision router and the graph
    wiring, followed by the properties of the workflow.

    Conventions of the embedding.
    - A Python dict is a [gmap]; the workflow state is a [gmap string value].
      A node receives the dict and returns it: the embedding passes the
      state explicitly, and a raised exception abandons the call.
    - Code that reads files, calls the scheduling backend or the language
      model runs in the monad [M]: a function of the [World] (the CSV files
      under data/, the backend, the model) that returns an [outcome]
      (a value or a raised exception) and the world afterwards.
    - Every external effect leaves an [event] on the world's [trace]
      (newest first).  The two audit lines that the wrapper prints are
      events too; the other console messages are not modelled.
    - Strings are ASCII text.
    - The data files exist and hold the columns that generate_data.py
      writes; a [World] holds what pandas reads back from them.  The
      predicate [as_read] says of a world what reading back guarantees: no
      cell of a text column is one of the tokens that pandas reads as a
      missing value, a number or a truth value, and the cells of the score
      columns are 64-bit integers.
    - Telemetry readings are written by generate_data.py with two decimals;
      they are kept in hundredths.
    - The score columns are numpy int64 columns: products and sums on their
      cells wrap around ([wrap64]).
    - The priority score is computed in binary64.  A binary64 value is kept
      as an integer number of ticks of 2^-53 (every value that occurs is a
      multiple of it), [round53] rounds to 53 significant bits, ties to
      even, and [int(...)] is truncation. *)

From Stdlib Require Import ZArith Ascii String DecimalString.
From stdpp Require Import base option list strings gmap fin_maps.

Local Open Scope Z_scope.

(** ** Python values and exceptions *)

(** A row of data/vehicle_telematics.csv (what [anomaly.to_dict()] holds). *)
Record TelemetryRow := {
  t_vehicle_id : string;
  t_timestamp : string;
  t_odometer_km : Z;
  brake_fluid_pressure_psi : Z;   (* hundredths of a psi *)
  brake_pad_thickness_mm : Z;     (* hundredths of a millimetre *)
  dtc_code : option string
}.

(** What a field of the workflow state can hold. *)
Inductive value :=
| VStr (s : string)
| VInt (n : Z)
| VDict (row : TelemetryRow).

Inductive py_exception :=
| PermissionError (msg : string)
| KeyError (key : value)
| IndexError
| TypeError
| ValueError.

Abbreviation WorkflowState := (gmap string value).

(** ** The other data files *)

Record SafetyRow := {
  component : string;
  safety_impact_score : Z
}.

Record CustomerRow := {
  c_vehicle_id : string;
  customer_id : string;
  customer_name : string;
  driving_style : string;
  avg_daily_km : Z;
  health_score : Z
}.

Record MaintenanceRow := {
  record_id : Z;
  m_vehicle_id : string;
  service_date : string;
  description : string;
  dtc_code_at_service : option string
}.

Record RcaRow := {
  rca_id : string;
  part_number : string;
  part_name : string;
  failure_mode : string;
  root_cause : string;
  corrective_action_plan : string
}.

(** ** Effects *)

Inductive capability :=
| CapReadCsv (path : string)
| CapWriteCsv (path : string)
| CapHttpGet (url : string)
| CapHttpPost (url : string)
| CapLlmInvoke.

(** [EvAllowed] and [EvDenied] are the wrapper's two audit lines, [EvCap]
    is an external effect taking place, and [EvExit] marks the point where
    a callable started by the wrapper has finished (a bookkeeping marker:
    nothing is printed there). *)
Inductive event :=
| EvAllowed (agent_name tool_name : string)
| EvDenied (agent_name tool_name : string)
| EvCap (c : capability)
| EvExit.

(** The text handed to the language model is determined by the values
    interpolated into it; the model is a function of those values. *)
Inductive prompt :=
| DiagnosisPrompt (vehicle_id : value) (pressure thickness : Z)
    (valid_components : list string)
| OutreachPrompt (customer_name : value) (diagnosis : value)
    (pressure thickness : Z).

Record World := {
  vehicle_telematics : list TelemetryRow;
  safety_impact_scores : list SafetyRow;
  customer_profiles : list CustomerRow;
  maintenance_logs : list MaintenanceRow;
  rca_records : list RcaRow;
  (* GET /scheduler/get_slots: the "slots" entry of the reply, if any *)
  scheduler_get_slots : option (list string);
  (* POST /scheduler/book_slot: the JSON object of the reply *)
  scheduler_book_slot : value -> string -> gmap string string;
  (* the .content of the model's reply *)
  llm_content : prompt -> string;
  trace : list event
}.

Inductive outcome (A : Type) :=
| Return (a : A)
| Raise (e : py_exception).
Arguments Return {A} a.
Arguments Raise {A} e.

Definition M (A : Type) : Type := World -> outcome A * World.

#[export] Instance M_ret : MRet M := fun A a w => (Return a, w).

#[export] Instance M_bind : MBind M := fun A B k m w =>
  match m w with
  | (Return a, w') => k a w'
  | (Raise e, w') => (Raise e, w')
  end.

Definition raise {A} (e : py_exception) : M A := fun w => (Raise e, w).

Definition emit (ev : event) (w : World) : World :=
  {| vehicle_telematics := vehicle_telematics w;
     safety_impact_scores := safety_impact_scores w;
     customer_profiles := customer_profiles w;
     maintenance_logs := maintenance_logs w;
     rca_records := rca_records w;
     scheduler_get_slots := scheduler_get_slots w;
     scheduler_book_slot := scheduler_book_slot w;
     llm_content := llm_content w;
     trace := ev :: trace w |}.

Definition log (ev : event) : M unit := fun w => (Return tt, emit ev w).

(** [try: body / except PermissionError as e: handler(e)]. *)
Definition try_except_PermissionError {A} (body : M A) (handler : string -> M A) : M A :=
  fun w =>
    match body w with
    | (Raise (PermissionError msg), w') => handler msg w'
    | r => r
    end.

(** [x in xs] on a list of strings. *)
Fixpoint py_in (x : string) (xs : list string) : bool :=
  match xs with
  | [] => false
  | y :: ys => if String.eqb x y then true else py_in x ys
  end.

(** [xs.iloc[0]]. *)
Definition iloc0 {A} (xs : list A) : M A :=
  match xs with
  | [] => raise IndexError
  | x :: _ => mret x
  end.

(** [state[key]]. *)
Definition getitem (state : WorkflowState) (key : string) : M value :=
  match state !! key with
  | Some v => mret v
  | None => raise (KeyError (VStr key))
  end.

(** [str(n)] for an int. *)
Definition py_str_int (n : Z) : string := NilZero.string_of_int (Z.to_int n).

(** ** Machine numbers *)

(** The value of an int64 result: wrap-around modulo 2^64. *)
Definition wrap64 (z : Z) : Z := (z + 2 ^ 63) mod 2 ^ 64 - 2 ^ 63.

(** The cells an int64 column can hold. *)
Definition int64 (z : Z) : Prop := - 2 ^ 63 <= z < 2 ^ 63.

(** Round to nearest, ties to even: whether the quotient [q], left with
    the remainder [r] of a division by twice [half], goes up. *)
Definition round_up (q r half : Z) : bool :=
  if r <? half then false else if half <? r then true else negb (Z.even q).

(** A positive number of ticks rounded to 53 significant bits. *)
Definition round53_pos (n : Z) : Z :=
  let k := Z.log2 n - 52 in
  if k <=? 0 then n
  else
    let q := n / 2 ^ k in
    let r := n mod 2 ^ k in
    (if round_up q r (2 ^ (k - 1)) then q + 1 else q) * 2 ^ k.

Definition round53 (n : Z) : Z := Z.sgn n * round53_pos (Z.abs n).

(** [float(a)] for an integer [a], in ticks. *)
Definition float_of_int (a : Z) : Z := round53 (a * 2 ^ 53).

(** [x + y] on two floats. *)
Definition fadd (x y : Z) : Z := round53 (x + y).

(** [x * n] for a float [x] and a small Python int [n]. *)
Definition fmul_int (x n : Z) : Z := round53 (x * n).

(** [int(x)] for a float [x]. *)
Definition int_of_float (x : Z) : Z := Z.quot x (2 ^ 53).

(** ** 2. UEBA security layer *)

Definition ALLOWED_TOOLS : gmap string (list string) :=
  list_to_map [
    ("DataAnalysisAgent", ["read_csv"]);
    ("DiagnosisAgent", ["read_csv"; "llm_invoke"]);
    ("CustomerEngagementAgent", ["llm_invoke"]);
    ("SchedulingAgent", ["get_service_slots"; "book_appointment"]);
    ("FeedbackAgent", ["read_csv"; "write_csv"; "llm_invoke"])
  ]%string.

(** [tool_name in table.get(agent_name, [])], for any table. *)
Definition permits_in (table : gmap string (list string))
    (agent_name tool_name : string) : bool :=
  py_in tool_name (default [] (table !! agent_name)).

Definition permits : string -> string -> bool := permits_in ALLOWED_TOOLS.

Definition denial_message (agent_name tool_name : string) : string :=
  "Unauthorized access attempt by " +:+ agent_name +:+ " on tool " +:+ tool_name.

(** Runs [func] and marks on the trace where it finished, whether it
    returned or raised. *)
Definition scoped {A} (func : M A) : M A := fun w =>
  let (r, w') := func w in (r, emit EvExit w').

(** [func] stands for the callable applied to the arguments passed along. *)
Definition ueba_security_wrapper {A} (agent_name tool_name : string) (func : M A) : M A :=
  if permits agent_name tool_name then
    _ ← log (EvAllowed agent_name tool_name);
    scoped func
  else
    _ ← log (EvDenied agent_name tool_name);
    raise (PermissionError (denial_message agent_name tool_name)).

(** ** 3. Tools *)

Definition telematics_csv : string := "data/vehicle_telematics.csv".
Definition safety_csv : string := "data/safety_impact_scores.csv".
Definition customers_csv : string := "data/customer_profiles.csv".
Definition maintenance_csv : string := "data/maintenance_logs.csv".
Definition rca_csv : string := "data/rca_records.csv".
Definition get_slots_url : string := "http://127.0.0.1:8000/scheduler/get_slots".
Definition book_slot_url : string := "http://127.0.0.1:8000/scheduler/book_slot".

(** [pd.read_csv(path)]: [table] is the file that [path] names. *)
Definition read_csv {A} (path : string) (table : World -> list A) : M (list A) :=
  fun w => (Return (table w), emit (EvCap (CapReadCsv path)) w).

(** The world with data/customer_profiles.csv replaced by [rows]. *)
Definition store_customer_profiles (rows : list CustomerRow) (w : World) : World :=
  {| vehicle_telematics := vehicle_telematics w;
     safety_impact_scores := safety_impact_scores w;
     customer_profiles := rows;
     maintenance_logs := maintenance_logs w;
     rca_records := rca_records w;
     scheduler_get_slots := scheduler_get_slots w;
     scheduler_book_slot := scheduler_book_slot w;
     llm_content := llm_content w;
     trace := trace w |}.

(** [customers_df.to_csv('data/customer_profiles.csv', index=False)]. *)
Definition to_csv_customers (rows : list CustomerRow) : M unit := fun w =>
  (Return tt, emit (EvCap (CapWriteCsv customers_csv)) (store_customer_profiles rows w)).

(** [llm.invoke(prompt).content]. *)
Definition llm_invoke (p : prompt) : M string := fun w =>
  (Return (llm_content w p), emit (EvCap CapLlmInvoke) w).

(** [s.strip()]: the ASCII characters Python counts as white space. *)
Definition py_isspace (c : ascii) : bool :=
  let n := nat_of_ascii c in
  ((9 <=? n) && (n <=? 13) || (28 <=? n) && (n <=? 32))%nat.

Fixpoint lstrip (s : string) : string :=
  match s with
  | EmptyString => EmptyString
  | String c s' => if py_isspace c then lstrip s' else s
  end.

Definition strip (s : string) : string :=
  String.rev (lstrip (String.rev (lstrip s))).

(** [s.replace(c, "")] for a one-character [c]. *)
Fixpoint remove_char (c : ascii) (s : string) : string :=
  match s with
  | EmptyString => EmptyString
  | String d s' => if Ascii.eqb c d then remove_char c s' else String d (remove_char c s')
  end.

Definition single_quote : ascii := ascii_of_nat 39.
Definition double_quote : ascii := ascii_of_nat 34.

(** [column == v] where the column holds strings. *)
Definition str_eq_value (s : string) (v : value) : bool :=
  match v with
  | VStr s' => String.eqb s s'
  | _ => false
  end.

(** [anomaly[...]] needs a dict. *)
Definition as_dict (v : value) : M TelemetryRow :=
  match v with
  | VDict row => mret row
  | _ => raise TypeError
  end.

(** An ordering comparison with an int needs a number. *)
Definition as_int (v : value) : M Z :=
  match v with
  | VInt n => mret n
  | _ => raise TypeError
  end.

(** [df[df[col] == v]]: the rows whose [col] equals [v], for a string or
    a number [v] (a number equals no text).  Comparing a column with a dict
    raises in pandas: the callers deal with a dict before they select. *)
Definition rows_where {A} (key : A -> string) (v : value) (rows : list A) : list A :=
  filter (fun r => str_eq_value (key r) v = true) rows.
#[global] Arguments rows_where : simpl never.

(** [df.set_index(col).loc[label]]: the rows carrying the label; a label
    that no row carries is a KeyError. *)
Definition loc {A} (key : A -> string) (rows : list A) (label : value) : M (list A) :=
  match label with
  | VDict _ => raise TypeError
  | _ =>
    match rows_where key label rows with
    | [] => raise (KeyError label)
    | found => mret found
    end
  end.

(** [telemetry_df[telemetry_df['brake_fluid_pressure_psi'] < 450]]. *)
Definition low_pressure (telemetry_df : list TelemetryRow) : list TelemetryRow :=
  filter (fun r => brake_fluid_pressure_psi r < 45000) telemetry_df.

Definition analyze_telemetry_data : M TelemetryRow :=
  telemetry_df ← read_csv telematics_csv vehicle_telematics;
  iloc0 (low_pressure telemetry_df).

(** [failure_risk_prob = 0.92]: the binary64 nearest to 0.92, in ticks. *)
Definition failure_risk_prob : Z := 8286623314361713.

(** [int((safety_score * 5) + (failure_risk_score * 3) + (customer_factor * 2))]
    with [failure_risk_score = failure_risk_prob * 10]: the product with the
    int64 cell wraps, the two sums are binary64 sums, left to right. *)
Definition drps_formula (safety_score customer_factor : Z) : Z :=
  let failure_risk_score := fmul_int failure_risk_prob 10 in
  int_of_float
    (fadd (fadd (float_of_int (wrap64 (safety_score * 5))) (fmul_int failure_risk_score 3))
          (float_of_int (customer_factor * 2))).

(** The component the diagnosis keeps: the model's answer when the table
    lists it, "Brakes" otherwise. *)
Definition checked_component (safety_df : list SafetyRow) (predicted_component : string) : string :=
  if negb (py_in predicted_component (map component safety_df))
  then "Brakes"
  else predicted_component.

Definition get_diagnosis_and_drps (vehicle_id anomaly : value) : M (string * Z) :=
  safety_df ← read_csv safety_csv safety_impact_scores;
  customer_df ← read_csv customers_csv customer_profiles;
  let valid_components := map component safety_df in
  row ← as_dict anomaly;
  content ← llm_invoke (DiagnosisPrompt vehicle_id (brake_fluid_pressure_psi row)
                          (brake_pad_thickness_mm row) valid_components);
  let predicted_component :=
    remove_char double_quote (remove_char single_quote (strip content)) in
  let predicted_component := checked_component safety_df predicted_component in
  scores ← loc component safety_df (VStr predicted_component);
  profile ← loc c_vehicle_id customer_df vehicle_id;
  customer_factor ←
    match profile with
    | [p] => mret (if String.eqb (driving_style p) "Highway" then 9 else 5)
    | _ => raise ValueError     (* several rows: the comparison is a Series *)
    end;
  match scores with
  | [s] => mret (predicted_component,
                 drps_formula (safety_impact_score s) customer_factor)
  | _ => raise TypeError        (* several rows: int() of a Series *)
  end.

Definition generate_xai_customer_message
    (customer_name drps_score anomaly_data diagnosis : value) : M string :=
  n ← as_int drps_score;
  let urgency_level :=
    if n <? 75
    then "This is a non-urgent recommendation to keep your car in top shape."
    else "It's important we look at this soon to ensure your safety and prevent a breakdown." in
  row ← as_dict anomaly_data;
  llm_invoke (OutreachPrompt customer_name diagnosis
                (brake_fluid_pressure_psi row) (brake_pad_thickness_mm row)).

Definition get_service_slots : M (list string) := fun w =>
  let w' := emit (EvCap (CapHttpGet get_slots_url)) w in
  match scheduler_get_slots w with
  | Some slots => (Return slots, w')
  | None => (Raise (KeyError (VStr "slots")), w')
  end.

Definition book_appointment (vehicle_id : value) (slot : string) : M (gmap string string) :=
  fun w => (Return (scheduler_book_slot w vehicle_id slot),
            emit (EvCap (CapHttpPost book_slot_url)) w).

(** The rows of the maintenance log whose code at service is [code]. *)
Definition with_dtc_code (code : string) (rows : list MaintenanceRow) : list MaintenanceRow :=
  filter (fun r => dtc_code_at_service r = Some code) rows.

Definition insight_text (rca : string) (recurrence_count : Z) : string :=
  "Failure linked to " +:+ rca +:+ ". This is the **" +:+ py_str_int (recurrence_count + 1)
  +:+ "th instance** of this defect recorded across the fleet. Recommend escalating for quality review.".

Definition set_health_score (vehicle_id : value) (new_score : Z) (r : CustomerRow) : CustomerRow :=
  if str_eq_value (c_vehicle_id r) vehicle_id
  then {| c_vehicle_id := c_vehicle_id r; customer_id := customer_id r;
          customer_name := customer_name r; driving_style := driving_style r;
          avg_daily_km := avg_daily_km r; health_score := new_score |}
  else r.

Definition perform_rca_and_update_score (vehicle_id : value) : M (string * Z) :=
  rca_df ← read_csv rca_csv rca_records;
  maintenance_df ← read_csv maintenance_csv maintenance_logs;
  customers_df ← read_csv customers_csv customer_profiles;
  let recurrence_count := Z.of_nat (length (with_dtc_code "C0204" maintenance_df)) in
  first_rca ← iloc0 (map rca_id rca_df);
  let insight := insight_text first_rca recurrence_count in
  _ ← match vehicle_id with
      | VDict _ => raise ValueError      (* a column compared with a dict *)
      | _ => mret tt
      end;
  current_score ← iloc0 (map health_score (rows_where c_vehicle_id vehicle_id customers_df));
  let new_score := wrap64 (current_score + 50) in
  _ ← to_csv_customers (map (set_health_score vehicle_id new_score) customers_df);
  mret (insight, new_score).

(** ** 4. Agent nodes *)

(** Two-decimal rendering of a reading kept in hundredths ([{x:.2f}]).
    It is Python's rendering for the readings that a binary64 holds to two
    decimals (magnitudes below 7e13); a negative zero has no counterpart
    among the hundredths. *)
Definition two_digits (n : Z) : string :=
  if n <? 10 then "0" +:+ py_str_int n else py_str_int n.

Definition fmt_2f (x : Z) : string :=
  (if x <? 0 then "-" else "") +:+ py_str_int (Z.quot (Z.abs x) 100)
  +:+ "." +:+ two_digits (Z.rem (Z.abs x) 100).

Definition anomaly_details_text (row : TelemetryRow) : string :=
  "Low pressure (" +:+ fmt_2f (brake_fluid_pressure_psi row) +:+ " psi) & thickness ("
  +:+ fmt_2f (brake_pad_thickness_mm row) +:+ "mm)".

Definition data_analysis_node (state : WorkflowState) : M WorkflowState :=
  anomaly_dict ← ueba_security_wrapper "DataAnalysisAgent" "read_csv" analyze_telemetry_data;
  customer_df ← read_csv customers_csv customer_profiles;
  let state := <["vehicle_id" := VStr (t_vehicle_id anomaly_dict)]> state in
  let mine := rows_where c_vehicle_id (VStr (t_vehicle_id anomaly_dict)) customer_df in
  cid ← iloc0 (map customer_id mine);
  let state := <["customer_id" := VStr cid]> state in
  cname ← iloc0 (map customer_name mine);
  let state := <["customer_name" := VStr cname]> state in
  let state := <["anomaly_data" := VDict anomaly_dict]> state in
  mret (<["anomaly_details" := VStr (anomaly_details_text anomaly_dict)]> state).

Definition diagnosis_node (state : WorkflowState) : M WorkflowState :=
  vehicle_id ← getitem state "vehicle_id";
  anomaly_data ← getitem state "anomaly_data";
  r ← ueba_security_wrapper "DiagnosisAgent" "llm_invoke"
        (get_diagnosis_and_drps vehicle_id anomaly_data);
  let state := <["diagnosis" := VStr r.1]> state in
  mret (<["drps_score" := VInt r.2]> state).

Definition customer_engagement_node (state : WorkflowState) : M WorkflowState :=
  customer_name ← getitem state "customer_name";
  drps_score ← getitem state "drps_score";
  anomaly_data ← getitem state "anomaly_data";
  diagnosis ← getitem state "diagnosis";
  xai_message ← ueba_security_wrapper "CustomerEngagementAgent" "llm_invoke"
    (generate_xai_customer_message customer_name drps_score anomaly_data diagnosis);
  let state := <["xai_explanation" := VStr xai_message]> state in
  mret (<["customer_response" := VStr "yes"]> state).

(** The callable of the demonstration call: [lambda: "this should fail"]. *)
Definition payment_history_probe : M string := mret "this should fail"%string.

(** The [try]/[except] block that opens [scheduling_node]. *)
Definition scheduling_demo_block (state : WorkflowState) : M WorkflowState :=
  try_except_PermissionError
    (_ ← ueba_security_wrapper "SchedulingAgent" "get_payment_history" payment_history_probe;
     mret state)
    (fun msg => mret (<["error_message" := VStr msg]> state)).

(** The authorized calls that follow it. *)
Definition scheduling_authorized_calls (state : WorkflowState) : M WorkflowState :=
  slots ← ueba_security_wrapper "SchedulingAgent" "get_service_slots" get_service_slots;
  chosen_slot ← match slots !! 1%nat with
                | Some s => mret s
                | None => raise IndexError
                end;
  let state := <["appointment_slot" := VStr chosen_slot]> state in
  vehicle_id ← getitem state "vehicle_id";
  booking ← ueba_security_wrapper "SchedulingAgent" "book_appointment"
              (book_appointment vehicle_id chosen_slot);
  status ← match booking !! "status" with
           | Some s => mret s
           | None => raise (KeyError (VStr "status"))
           end;
  mret (<["booking_status" := VStr status]> state).

Definition scheduling_node (state : WorkflowState) : M WorkflowState :=
  state ← scheduling_demo_block state;
  scheduling_authorized_calls state.

Definition handle_declined_node (state : WorkflowState) : M WorkflowState :=
  mret (<["booking_status" := VStr "Declined - Follow-up Scheduled"]> state).

(** The router returns a label; the dict it was given is the second
    component, as the call leaves it. *)
Definition should_schedule (state : WorkflowState) : M (string * WorkflowState) :=
  drps_score ← getitem state "drps_score";
  n ← as_int drps_score;
  if 80 <? n
  then mret ("continue_to_scheduling"%string, <["customer_response" := VStr "yes"]> state)
  else mret ("handle_decline"%string, <["customer_response" := VStr "no"]> state).

Definition feedback_and_insight_node (state : WorkflowState) : M WorkflowState :=
  vehicle_id ← getitem state "vehicle_id";
  r ← ueba_security_wrapper "FeedbackAgent" "read_csv" (perform_rca_and_update_score vehicle_id);
  mret (<["final_insight" := VStr r.1]> state).

(** ** 5-6. Graph definition and edges *)

Definition END : string := "__end__".

Inductive edge :=
| Edge (target : string)
| ConditionalEdges (router : WorkflowState -> M (string * WorkflowState))
    (path_map : gmap string string).

Record StateGraph := {
  nodes : gmap string (WorkflowState -> M WorkflowState);
  entry_point : string;
  edges : gmap string edge
}.

Definition workflow : StateGraph := {|
  nodes := list_to_map [
    ("data_analysis"%string, data_analysis_node);
    ("diagnosis"%string, diagnosis_node);
    ("customer_engagement"%string, customer_engagement_node);
    ("scheduling"%string, scheduling_node);
    ("handle_decline"%string, handle_declined_node);
    ("feedback_and_insight"%string, feedback_and_insight_node) ];
  entry_point := "data_analysis";
  edges := list_to_map [
    ("data_analysis"%string, Edge "diagnosis");
    ("diagnosis"%string, Edge "customer_engagement");
    ("customer_engagement"%string,
       ConditionalEdges should_schedule
         (list_to_map [("continue_to_scheduling"%string, "scheduling"%string);
                       ("handle_decline"%string, "handle_decline"%string)]));
    ("scheduling"%string, Edge "feedback_and_insight");
    ("feedback_and_insight"%string, Edge END);
    ("handle_decline"%string, Edge END) ]
|}.

(** ** 7. Running the graph *)

Inductive failure :=
| NodeFailure (node : string) (e : py_exception)
| RouterFailure (node : string) (e : py_exception)
| RoutingFault (label : string)
| UnknownNode (name : string).

(** How a run ends: at a terminal node with the final state, or halted
    with the state the failing step was given. *)
Inductive run_end :=
| Completed (final : WorkflowState)
| Halted (partial : WorkflowState) (f : failure).

Record run := {
  visited : list string;      (* the nodes executed, in order *)
  ending : run_end;
  world_after : World
}.

(** Modelled from the spec: the execution engine (the graph library that
    [workflow.compile()] and [app.invoke] come from is not part of the
    sources).  Sections 4.4 and 4.5: nodes run strictly one after the
    other from the given node; after a node returns, an unconditional edge
    names the successor, a router's label is looked up in its mapping and
    an unmapped label is a fatal routing fault; a failure that the node
    does not recover halts the run at once; reaching a terminal marker, or
    a node with no outgoing edge, ends the run with the final state.
    [None] means that [fuel] steps were not enough. *)
Fixpoint execute_from (fuel : nat) (g : StateGraph) (current : string)
    (state : WorkflowState) (w : World) : option run :=
  match fuel with
  | O => None
  | S fuel' =>
    let halt st f w' :=
      Some {| visited := [current]; ending := Halted st f; world_after := w' |} in
    let continue_at next st w' :=
      if String.eqb next END
      then Some {| visited := [current]; ending := Completed st; world_after := w' |}
      else
        r ← execute_from fuel' g next st w';
        Some {| visited := current :: visited r; ending := ending r;
                world_after := world_after r |} in
    match nodes g !! current with
    | None => Some {| visited := []; ending := Halted state (UnknownNode current);
                      world_after := w |}
    | Some node =>
      match node state w with
      | (Raise e, w') => halt state (NodeFailure current e) w'
      | (Return state', w') =>
        match edges g !! current with
        | None => Some {| visited := [current]; ending := Completed state'; world_after := w' |}
        | Some (Edge next) => continue_at next state' w'
        | Some (ConditionalEdges router path_map) =>
          match router state' w' with
          | (Raise e, w'') => halt state' (RouterFailure current e) w''
          | (Return (label, state''), w'') =>
            match path_map !! label with
            | None => halt state'' (RoutingFault label) w''
            | Some next => continue_at next state'' w''
            end
          end
        end
      end
    end
  end.

Definition execute (fuel : nat) (g : StateGraph) (initial_state : WorkflowState)
    (w : World) : option run :=
  execute_from fuel g (entry_point g) initial_state w.

(** ** Reading a trace *)

(** The capabilities exercised while no wrapper call was in progress, for
    events in the order they happened. *)
Fixpoint outside_wrapper (depth : nat) (evs : list event) : list capability :=
  match evs with
  | [] => []
  | EvAllowed _ _ :: rest => outside_wrapper (S depth) rest
  | EvExit :: rest => outside_wrapper (Nat.pred depth) rest
  | EvDenied _ _ :: rest => outside_wrapper depth rest
  | EvCap c :: rest =>
    match depth with
    | O => c :: outside_wrapper depth rest
    | S _ => outside_wrapper depth rest
    end
  end.

Definition capabilities_outside_wrapper (w : World) : list capability :=
  outside_wrapper 0 (rev (trace w)).

(** The label a router call produced, if it produced one. *)
Definition label_of (r : outcome (string * WorkflowState) * World) : option string :=
  match r.1 with
  | Return (label, _) => Some label
  | Raise _ => None
  end.

(** ** The data of the repository

    The tables that generate_data.py writes with fixed contents, the
    replies of mock_api.py, and one flagged reading (420 psi, 6.5 mm). *)

Definition safety_scores : list SafetyRow := [
  {| component := "Brakes"; safety_impact_score := 10 |};
  {| component := "Engine"; safety_impact_score := 9 |};
  {| component := "Transmission"; safety_impact_score := 8 |};
  {| component := "Steering"; safety_impact_score := 9 |};
  {| component := "Suspension"; safety_impact_score := 7 |};
  {| component := "Tires"; safety_impact_score := 8 |};
  {| component := "AC System"; safety_impact_score := 3 |};
  {| component := "Infotainment"; safety_impact_score := 1 |} ].

Definition logs : list MaintenanceRow := [
  {| record_id := 1; m_vehicle_id := "veh_003"; service_date := "2025-05-10";
     description := "Annual Service"; dtc_code_at_service := None |};
  {| record_id := 2; m_vehicle_id := "veh_007"; service_date := "2025-01-20";
     description := "Tire rotation"; dtc_code_at_service := None |};
  {| record_id := 3; m_vehicle_id := "veh_009"; service_date := "2025-07-30";
     description := "Replaced brake master cylinder";
     dtc_code_at_service := Some "C0204"%string |} ].

Definition rca : list RcaRow := [
  {| rca_id := "RCA-112"; part_number := "BCM-45-A2"; part_name := "Brake Master Cylinder";
     failure_mode := "Internal Seal Degradation";
     root_cause := "Material impurity from supplier batch #XYZ";
     corrective_action_plan := "Recall batch #XYZ" |} ].

(** Two of the ten profiles; style, distance and score are drawn at random
    by the generator within its ranges. *)
Definition profiles : list CustomerRow := [
  {| c_vehicle_id := "veh_003"; customer_id := "cust_103"; customer_name := "Anjali";
     driving_style := "City"; avg_daily_km := 42; health_score := 900 |};
  {| c_vehicle_id := "veh_007"; customer_id := "cust_107"; customer_name := "Neha";
     driving_style := "Highway"; avg_daily_km := 120; health_score := 800 |} ].

Definition flagged_reading : TelemetryRow :=
  {| t_vehicle_id := "veh_007"; t_timestamp := "2025-10-01 10:00:00";
     t_odometer_km := 52000; brake_fluid_pressure_psi := 42000;
     brake_pad_thickness_mm := 650; dtc_code := None |}.

Definition healthy_reading : TelemetryRow :=
  {| t_vehicle_id := "veh_003"; t_timestamp := "2025-10-01 10:00:00";
     t_odometer_km := 48000; brake_fluid_pressure_psi := 55012;
     brake_pad_thickness_mm := 1195; dtc_code := None |}.

(** mock_api.py: [get_available_slots] and [book_appointment]
    ([bucket] stands for [abs(hash(vehicle_id)) % 10000]). *)
Definition mock_slots : list string := ["09:00 AM"; "11:00 AM"; "02:00 PM"; "04:00 PM"]%string.

Definition mock_book (bucket : Z) (vehicle_id : value) (slot : string) : gmap string string :=
  list_to_map [("status", "confirmed"); ("booking_id", "BK" +:+ py_str_int bucket)]%string.

(** A model that answers with a part name instead of a listed component. *)
Definition off_list_model (p : prompt) : string :=
  match p with
  | DiagnosisPrompt _ _ _ _ => " 'Brake Master Cylinder' "
  | OutreachPrompt _ _ _ _ => "Hello, this is AutoMate."
  end.

Definition demo_world : World :=
  {| vehicle_telematics := [healthy_reading; flagged_reading];
     safety_impact_scores := safety_scores;
     customer_profiles := profiles;
     maintenance_logs := logs;
     rca_records := rca;
     scheduler_get_slots := Some mock_slots;
     scheduler_book_slot := mock_book 4711;
     llm_content := off_list_model;
     trace := [] |}.

(** The state as the first three nodes leave it for that reading. *)
Definition engaged_state : WorkflowState :=
  list_to_map [
    ("vehicle_id", VStr "veh_007"); ("customer_id", VStr "cust_107");
    ("customer_name", VStr "Neha"); ("anomaly_data", VDict flagged_reading);
    ("anomaly_details", VStr "Low pressure (420.00 psi) & thickness (6.50mm)");
    ("diagnosis", VStr "Brakes"); ("drps_score", VInt 95);
    ("xai_explanation", VStr "Hello, this is AutoMate.");
    ("customer_response", VStr "yes") ]%string.

(** The state after diagnosis and engagement when the model names the
    least critical component and the driver is not a highway driver. *)
Definition low_priority_state : WorkflowState :=
  <["diagnosis" := VStr "Infotainment"]> (<["drps_score" := VInt 42]> engaged_state).

(** The model's answer as the diagnosis reads it. *)
Definition model_answer (w : World) (vehicle_id : value) (row : TelemetryRow) : string :=
  remove_char double_quote (remove_char single_quote (strip
    (llm_content w (DiagnosisPrompt vehicle_id (brake_fluid_pressure_psi row)
                      (brake_pad_thickness_mm row) (map component (safety_impact_scores w)))))).

Definition after_diagnosis_effects (w : World) : World :=
  emit (EvCap CapLlmInvoke)
    (emit (EvCap (CapReadCsv customers_csv)) (emit (EvCap (CapReadCsv safety_csv)) w)).

Definition customer_factor_of (p : CustomerRow) : Z :=
  if String.eqb (driving_style p) "Highway" then 9 else 5.

(** The state as [data_analysis_node] leaves it for the flagged reading. *)
Definition analysed_state : WorkflowState :=
  list_to_map [
    ("vehicle_id", VStr "veh_007"); ("customer_id", VStr "cust_107");
    ("customer_name", VStr "Neha"); ("anomaly_data", VDict flagged_reading);
    ("anomaly_details", VStr "Low pressure (420.00 psi) & thickness (6.50mm)") ]%string.

(** A severity table that rates the brakes beyond ten. *)
Definition overscaled_scores : list SafetyRow := [
  {| component := "Brakes"; safety_impact_score := 15 |};
  {| component := "Engine"; safety_impact_score := 9 |} ].

Definition overscaled_world : World :=
  {| vehicle_telematics := [healthy_reading; flagged_reading];
     safety_impact_scores := overscaled_scores;
     customer_profiles := profiles;
     maintenance_logs := logs;
     rca_records := rca;
     scheduler_get_slots := Some mock_slots;
     scheduler_book_slot := mock_book 4711;
     llm_content := off_list_model;
     trace := [] |}.

(** The message of the denial that the scheduling node provokes. *)
Definition payment_history_denial : string :=
  "Unauthorized access attempt by SchedulingAgent on tool get_payment_history".

(** The state as [scheduling_node] leaves it with the mock backend. *)
Definition scheduled_state : WorkflowState :=
  <["booking_status" := VStr "confirmed"]>
    (<["appointment_slot" := VStr "11:00 AM"]>
       (<["error_message" := VStr payment_history_denial]> engaged_state)).

(** The events of [perform_rca_and_update_score], oldest first. *)
Definition feedback_events : list event :=
  [ EvAllowed "FeedbackAgent" "read_csv";
    EvCap (CapReadCsv rca_csv); EvCap (CapReadCsv maintenance_csv);
    EvCap (CapReadCsv customers_csv); EvCap (CapWriteCsv customers_csv);
    EvExit ].

(** The events of [scheduling_node] when its authorized calls succeed,
    oldest first. *)
Definition scheduling_events : list event :=
  [ EvDenied "SchedulingAgent" "get_payment_history";
    EvAllowed "SchedulingAgent" "get_service_slots"; EvCap (CapHttpGet get_slots_url); EvExit;
    EvAllowed "SchedulingAgent" "book_appointment"; EvCap (CapHttpPost book_slot_url); EvExit ].

(** The events of [data_analysis_node] once the telemetry holds a
    low-pressure reading, oldest first. *)
Definition data_analysis_events : list event :=
  [ EvAllowed "DataAnalysisAgent" "read_csv"; EvCap (CapReadCsv telematics_csv); EvExit;
    EvCap (CapReadCsv customers_csv) ].

(** ** The collaborators: mock_api.py and generate_data.py *)

Module mock_api.

(** [get_available_slots(service_date)]: the reply does not look at
    the date. *)
Definition get_available_slots (service_date : option string) : gmap string (list string) :=
  {[ "slots"%string := mock_slots ]}.

(** [book_appointment(data)]; [py_hash] is Python's [hash], which differs
    from process to process, on what [data.get('vehicle_id')] gives.  A
    JSON object is not hashable: for such a vehicle the handler raises
    TypeError and there is no reply ([None]). *)
Definition book_appointment (py_hash : option value -> Z) (data : gmap string value)
    : option (gmap string string) :=
  let vehicle_id := data !! "vehicle_id" in
  let slot := data !! "slot" in
  match vehicle_id with
  | Some (VDict _) => None
  | _ =>
    Some (list_to_map
            [ ("status", "confirmed");
              ("booking_id", "BK" +:+ py_str_int (Z.abs (py_hash vehicle_id) mod 10000))
            ]%string)
  end.

End mock_api.

(** The JSON body that [book_appointment] posts. *)
Definition booking_payload (vehicle_id : value) (slot : string) : gmap string value :=
  list_to_map [("vehicle_id"%string, vehicle_id); ("slot"%string, VStr slot)].

(** The scheduling backend of [w] is the mock API: whatever the mock
    replies is what the world's backend replies. *)
Definition served_by_mock_api (py_hash : option value -> Z) (w : World) : Prop :=
  scheduler_get_slots w = mock_api.get_available_slots None !! "slots"
  /\ forall (vehicle_id : value) (slot : string) (reply : gmap string string),
       mock_api.book_appointment py_hash (booking_payload vehicle_id slot) = Some reply ->
       scheduler_book_slot w vehicle_id slot = reply.

(** The tokens that [pd.read_csv] reads as a missing value. *)
Definition pandas_na_values : list string :=
  [ EmptyString; "#N/A"; "#N/A N/A"; "#NA"; "-1.#IND"; "-1.#QNAN"; "-NaN"; "-nan"; "1.#IND";
    "1.#QNAN"; "<NA>"; "N/A"; "NA"; "NULL"; "NaN"; "None"; "n/a"; "nan"; "null" ]%string.

(** What [pd.read_csv] reads as a number or a truth value when a whole
    column holds such cells, apart from the numerals: the infinities and
    the booleans, in any case. *)
Definition pandas_literals : list string := [ "inf"; "infinity"; "true"; "false" ]%string.

Definition is_letter (c : ascii) : bool :=
  let n := nat_of_ascii c in
  ((65 <=? n) && (n <=? 90) || (97 <=? n) && (n <=? 122))%nat.

Definition lower_char (c : ascii) : ascii :=
  let n := nat_of_ascii c in
  if ((65 <=? n) && (n <=? 90))%nat then ascii_of_nat (n + 32) else c.

(** [s.lower()]. *)
Definition py_lower (s : string) : string :=
  string_of_list_ascii (map lower_char (list_ascii_of_string s)).

(** A cell of a text column that is read back as the text it holds: it is
    not a missing-value token, it begins with a letter (so it is no
    numeral), and it is neither an infinity nor a boolean. *)
Definition text_cell (s : string) : Prop :=
  (s ∉ pandas_na_values)
  /\ match s with
     | String c _ => is_letter c = true
     | EmptyString => False
     end
  /\ (py_lower s ∉ pandas_literals).

(** The tables of [w] are what pandas reads back: text where the model has
    text, int64 where it has a score. *)
Definition as_read (w : World) : Prop :=
  Forall (fun r => text_cell (t_vehicle_id r)) (vehicle_telematics w)
  /\ Forall (fun r => text_cell (component r) /\ int64 (safety_impact_score r))
       (safety_impact_scores w)
  /\ Forall (fun r => text_cell (c_vehicle_id r) /\ text_cell (customer_id r)
                     /\ text_cell (customer_name r) /\ text_cell (driving_style r)
                     /\ int64 (health_score r))
       (customer_profiles w)
  /\ Forall (fun r => text_cell (rca_id r)) (rca_records w).

Module generate_data.

Definition vehicles : nat := 10.

(** [f'{i:03d}']. *)
Definition pad3 (i : nat) : string :=
  let digits := py_str_int (Z.of_nat i) in
  match String.length digits with
  | 1%nat => "00" +:+ digits
  | 2%nat => "0" +:+ digits
  | _ => digits
  end.

(** [pressure] before the noise is added, in psi. *)
Definition pressure (i j : nat) : Z :=
  if (i =? 7)%nat && (j <? 30)%nat then 450 - (30 - Z.of_nat j) * 5 else 550.

(** [thickness] before the noise is taken off, in hundredths of a mm. *)
Definition thickness (i j : nat) : Z :=
  if (i =? 7)%nat && (j <? 30)%nat then 800 - (30 - Z.of_nat j) * 20 else 1200.

(** The record appended for vehicle [i] and minute [j].  [noise_p] is
    [random.uniform(-2, 2)] and [noise_t] is [random.uniform(0, 0.1)] as
    they come out of the rounding to two decimals, in hundredths; [ts] is
    the time stamp. *)
Definition reading (noise_p noise_t : nat -> nat -> Z) (ts : nat -> nat -> string)
    (i j : nat) : TelemetryRow :=
  {| t_vehicle_id := "veh_" +:+ pad3 i;
     t_timestamp := ts i j;
     t_odometer_km := 45000 + Z.of_nat i * 1000 + Z.of_nat j * 2;
     brake_fluid_pressure_psi := pressure i j * 100 + noise_p i j;
     brake_pad_thickness_mm := thickness i j - noise_t i j;
     dtc_code := if pressure i j <? 400 then Some "C0204"%string else None |}.

(** The rows of data/vehicle_telematics.csv in the order they are
    appended. *)
Definition telematics (noise_p noise_t : nat -> nat -> Z) (ts : nat -> nat -> string)
    : list TelemetryRow :=
  i ← seq 1 vehicles; reading noise_p noise_t ts i <$> seq 0 100.

(** What the rounded noise can be. *)
Definition pressure_noise_ok (noise_p : nat -> nat -> Z) : Prop :=
  forall i j, -200 <= noise_p i j <= 200.

End generate_data.

(** ** Vocabulary of the further properties *)

(** The first of [keys] that [state] does not have. *)
Fixpoint first_missing (keys : list string) (state : WorkflowState) : option string :=
  match keys with
  | [] => None
  | key :: rest =>
    match state !! key with
    | None => Some key
    | Some _ => first_missing rest state
    end
  end.

(** The events of the nodes when they succeed, oldest first. *)
Definition diagnosis_events : list event :=
  [ EvAllowed "DiagnosisAgent" "llm_invoke";
    EvCap (CapReadCsv safety_csv); EvCap (CapReadCsv customers_csv); EvCap CapLlmInvoke;
    EvExit ].

Definition engagement_events : list event :=
  [ EvAllowed "CustomerEngagementAgent" "llm_invoke"; EvCap CapLlmInvoke; EvExit ].

(** The events of [scheduling_node] up to the fetch of the slots. *)
Definition slot_fetch_events : list event :=
  [ EvDenied "SchedulingAgent" "get_payment_history";
    EvAllowed "SchedulingAgent" "get_service_slots"; EvCap (CapHttpGet get_slots_url); EvExit ].

(** The events of the feedback node when it stops before the write. *)
Definition feedback_read_events : list event :=
  [ EvAllowed "FeedbackAgent" "read_csv";
    EvCap (CapReadCsv rca_csv); EvCap (CapReadCsv maintenance_csv);
    EvCap (CapReadCsv customers_csv); EvExit ].

(** The state as [data_analysis_node] returns it for the reading [r] and
    the profile [p]. *)
Definition analysed (state : WorkflowState) (r : TelemetryRow) (p : CustomerRow) : WorkflowState :=
  <["anomaly_details" := VStr (anomaly_details_text r)]>
    (<["anomaly_data" := VDict r]>
       (<["customer_name" := VStr (customer_name p)]>
          (<["customer_id" := VStr (customer_id p)]>
             (<["vehicle_id" := VStr (t_vehicle_id r)]> state)))).

Definition diagnosed (state : WorkflowState) (cat : string) (drps : Z) : WorkflowState :=
  <["drps_score" := VInt drps]> (<["diagnosis" := VStr cat]> state).

Definition engaged (state : WorkflowState) (message : string) : WorkflowState :=
  <["customer_response" := VStr "yes"]> (<["xai_explanation" := VStr message]> state).

(** A severity table without an entry for the brakes. *)
Definition engine_only_world : World :=
  {| vehicle_telematics := [healthy_reading; flagged_reading];
     safety_impact_scores := [ {| component := "Engine"; safety_impact_score := 9 |} ];
     customer_profiles := profiles;
     maintenance_logs := logs;
     rca_records := rca;
     scheduler_get_slots := Some mock_slots;
     scheduler_book_slot := mock_book 4711;
     llm_content := off_list_model;
     trace := [] |}.

(** A backend that offers a single slot. *)
Definition one_slot_world : World :=
  {| vehicle_telematics := [healthy_reading; flagged_reading];
     safety_impact_scores := safety_scores;
     customer_profiles := profiles;
     maintenance_logs := logs;
     rca_records := rca;
     scheduler_get_slots := Some ["09:00 AM"%string];
     scheduler_book_slot := mock_book 4711;
     llm_content := off_list_model;
     trace := [] |}.

(** The repository's data served by the mock API under the hash [py_hash]. *)
Definition mock_served_world (py_hash : option value -> Z) : World :=
  {| vehicle_telematics := [healthy_reading; flagged_reading];
     safety_impact_scores := safety_scores;
     customer_profiles := profiles;
     maintenance_logs := logs;
     rca_records := rca;
     scheduler_get_slots := mock_api.get_available_slots None !! "slots";
     scheduler_book_slot := fun vehicle_id slot =>
       default ∅ (mock_api.book_appointment py_hash (booking_payload vehicle_id slot));
     llm_content := off_list_model;
     trace := [] |}.

(** Files without a root-cause record. *)
Definition no_rca_world : World :=
  {| vehicle_telematics := [healthy_reading; flagged_reading];
     safety_impact_scores := safety_scores;
     customer_profiles := profiles;
     maintenance_logs := logs;
     rca_records := [];
     scheduler_get_slots := Some mock_slots;
     scheduler_book_slot := mock_book 4711;
     llm_content := off_list_model;
     trace := [] |}.

(** A model that names the least critical component. *)
Definition infotainment_model (p : prompt) : string :=
  match p with
  | DiagnosisPrompt _ _ _ _ => "Infotainment"
  | OutreachPrompt _ _ _ _ => "Hello, this is AutoMate."
  end.

Definition low_priority_world : World :=
  {| vehicle_telematics := [healthy_reading; flagged_reading];
     safety_impact_scores := safety_scores;
     customer_profiles := profiles;
     maintenance_logs := logs;
     rca_records := rca;
     scheduler_get_slots := Some mock_slots;
     scheduler_book_slot := mock_book 4711;
     llm_content := infotainment_model;
     trace := [] |}.

Definition neha : CustomerRow :=
  {| c_vehicle_id := "veh_007"; customer_id := "cust_107"; customer_name := "Neha";
     driving_style := "Highway"; avg_daily_km := 120; health_score := 800 |}.

(** The repository's data with freshly generated telemetry, without noise. *)
Definition generated_world : World :=
  {| vehicle_telematics :=
       generate_data.telematics (fun _ _ => 0) (fun _ _ => 0) (fun _ _ => "2025-10-01 10:00:00");
     safety_impact_scores := safety_scores;
     customer_profiles := profiles;
     maintenance_logs := logs;
     rca_records := rca;
     scheduler_get_slots := Some mock_slots;
     scheduler_book_slot := mock_book 4711;
     llm_content := off_list_model;
     trace := [] |}.

(** A run that has nothing to do with the brake defect: the reading
    carries the misfire code P0300, the model names the engine, and the
    maintenance log holds two brake repairs coded C0204. *)
Definition misfire_reading : TelemetryRow :=
  {| t_vehicle_id := "veh_007"; t_timestamp := "2025-10-01 10:00:00";
     t_odometer_km := 52000; brake_fluid_pressure_psi := 42000;
     brake_pad_thickness_mm := 650; dtc_code := Some "P0300"%string |}.

Definition brake_repairs : list MaintenanceRow := [
  {| record_id := 1; m_vehicle_id := "veh_003"; service_date := "2025-05-10";
     description := "Replaced brake master cylinder";
     dtc_code_at_service := Some "C0204"%string |};
  {| record_id := 2; m_vehicle_id := "veh_009"; service_date := "2025-07-30";
     description := "Replaced brake master cylinder";
     dtc_code_at_service := Some "C0204"%string |} ].

Definition engine_model (p : prompt) : string :=
  match p with
  | DiagnosisPrompt _ _ _ _ => "Engine"
  | OutreachPrompt _ _ _ _ => "Hello, this is AutoMate."
  end.

Definition engine_run_world : World :=
  {| vehicle_telematics := [healthy_reading; misfire_reading];
     safety_impact_scores := safety_scores;
     customer_profiles := profiles;
     maintenance_logs := brake_repairs;
     rca_records := rca;
     scheduler_get_slots := Some mock_slots;
     scheduler_book_slot := mock_book 4711;
     llm_content := engine_model;
     trace := [] |}.

(** * Properties *)

(** ** Basic facts *)

Lemma py_in_elem_of (x : string) (xs : list string) : py_in x xs = true ↔ x ∈ xs.
Proof.
  induction xs as [|y ys IH]; simpl.
  - split; [discriminate | intros H; inversion H].
  - destruct (String.eqb_spec x y) as [->|Hne].
    + split; [intros _; left | reflexivity].
    + rewrite IH. split; [by right|].
      intros [->|H]%elem_of_cons; [done | exact H].
Qed.

Lemma py_in_false (x : string) (xs : list string) : py_in x xs = false ↔ x ∉ xs.
Proof.
  rewrite <- py_in_elem_of. destruct (py_in x xs); split; congruence.
Qed.

Lemma emit_trace ev w : trace (emit ev w) = ev :: trace w.
Proof. reflexivity. Qed.

Lemma ALLOWED_TOOLS_lookup (R : string) (tools : list string) :
  ALLOWED_TOOLS !! R = Some tools ↔
  (R, tools) ∈ [ ("DataAnalysisAgent", ["read_csv"]);
                 ("DiagnosisAgent", ["read_csv"; "llm_invoke"]);
                 ("CustomerEngagementAgent", ["llm_invoke"]);
                 ("SchedulingAgent", ["get_service_slots"; "book_appointment"]);
                 ("FeedbackAgent", ["read_csv"; "write_csv"; "llm_invoke"]) ]%string.
Proof.
  unfold ALLOWED_TOOLS. symmetry. apply elem_of_list_to_map.
  compute_done.
Qed.

(** ** The access wrapper *)

(** C1. For every role, tool, callable and world: the wrapper runs the
    callable (after the ALLOWED audit line) and hands back its outcome
    unchanged exactly when the tool is in the role's allow-list; it raises
    PermissionError, with the message naming the role and the tool, exactly
    when it is not, and then the world differs from the one before only by
    the DENIED audit line, whatever the callable is: it was not invoked. *)
Theorem ueba_security_wrapper_runs_iff_permitted
    {A : Type} (r t : string) (f : M A) (w : World) :
  let w1 := emit (EvAllowed r t) w in
  let denied : outcome A * World :=
    (Raise (PermissionError ("Unauthorized access attempt by " +:+ r +:+ " on tool " +:+ t)),
     emit (EvDenied r t) w) in
  (t ∈ default [] (ALLOWED_TOOLS !! r)
     ↔ ueba_security_wrapper r t f w = ((f w1).1, emit EvExit (f w1).2))
  ∧ (t ∉ default [] (ALLOWED_TOOLS !! r) ↔ ueba_security_wrapper r t f w = denied)
  ∧ (t ∉ default [] (ALLOWED_TOOLS !! r)
       → ∀ g : M A, ueba_security_wrapper r t g w = denied).
Proof.
  intros w1 denied.
  assert (Hallow : t ∈ default [] (ALLOWED_TOOLS !! r) →
            ueba_security_wrapper r t f w = ((f w1).1, emit EvExit (f w1).2)).
  { intros Hin. apply py_in_elem_of in Hin.
    unfold ueba_security_wrapper, permits, permits_in. rewrite Hin.
    unfold mbind, M_bind, log, scoped. fold w1. by destruct (f w1). }
  assert (Hdeny : t ∉ default [] (ALLOWED_TOOLS !! r) →
            ∀ g : M A, ueba_security_wrapper r t g w = denied).
  { intros Hnin g. apply py_in_false in Hnin.
    unfold ueba_security_wrapper, permits, permits_in. by rewrite Hnin. }
  split; [|split]; [split; [exact Hallow|] | split; [intros H; by apply Hdeny|] | exact Hdeny].
  - intros Heq. destruct (decide (t ∈ default [] (ALLOWED_TOOLS !! r))) as [|Hnin]; [done|].
    rewrite (Hdeny Hnin f) in Heq. unfold denied in Heq.
    apply (f_equal (fun p => trace p.2)) in Heq. simpl in Heq. discriminate.
  - intros Heq Hin. rewrite (Hallow Hin) in Heq. unfold denied in Heq.
    apply (f_equal (fun p => trace p.2)) in Heq. simpl in Heq. discriminate.
Qed.

(** C2. The permission check is membership in the configured table and
    nothing else: it grants exactly the nine listed role/tool pairs, a role
    that the table does not have is denied every tool, and in any table a
    role mapped to the empty list and a role removed from the table are
    both denied every tool. *)
Theorem permits_is_configured_membership (R C : string) :
  (permits R C = true ↔ ∃ tools, ALLOWED_TOOLS !! R = Some tools ∧ C ∈ tools)
  ∧ (permits R C = true ↔
       (R, C) ∈ [ ("DataAnalysisAgent", "read_csv");
                  ("DiagnosisAgent", "read_csv"); ("DiagnosisAgent", "llm_invoke");
                  ("CustomerEngagementAgent", "llm_invoke");
                  ("SchedulingAgent", "get_service_slots");
                  ("SchedulingAgent", "book_appointment");
                  ("FeedbackAgent", "read_csv"); ("FeedbackAgent", "write_csv");
                  ("FeedbackAgent", "llm_invoke") ]%string)
  ∧ (ALLOWED_TOOLS !! R = None → permits R C = false)
  ∧ (∀ table : gmap string (list string),
       permits_in (<[R := []]> table) R C = false
       ∧ permits_in (delete R table) R C = false
       ∧ (table !! R = None → permits_in table R C = false)).
Proof.
  assert (Hmem : permits R C = true ↔ ∃ tools, ALLOWED_TOOLS !! R = Some tools ∧ C ∈ tools).
  { unfold permits, permits_in. rewrite py_in_elem_of.
    destruct (ALLOWED_TOOLS !! R) as [tools|]; simpl.
    - split; [eauto | by intros (? & [= <-] & ?)].
    - split; [intros H; inversion H | by intros (? & [=] & _)]. }
  split; [exact Hmem|]. split; [|split].
  - rewrite Hmem. split.
    + intros (tools & Hlk & Hin). apply ALLOWED_TOOLS_lookup in Hlk.
      repeat (apply elem_of_cons in Hlk as [[= -> ->]|Hlk]);
        [repeat (apply elem_of_cons in Hin as [->|Hin]);
           first [compute_done | inversion Hin] ..|inversion Hlk].
    + intros Hin.
      repeat (apply elem_of_cons in Hin as [[= -> ->]|Hin];
              [eexists; split; [vm_compute; reflexivity | compute_done]|]).
      inversion Hin.
  - intros Hnone. unfold permits, permits_in. by rewrite Hnone.
  - intros table. unfold permits_in.
    rewrite lookup_insert_eq, lookup_delete_eq. simpl.
    repeat split. by intros ->.
Qed.

(** ** The decision router *)

Lemma should_schedule_run (state : WorkflowState) (w : World) (n : Z) :
  state !! "drps_score" = Some (VInt n) →
  should_schedule state w =
    (Return (if 80 <? n
             then ("continue_to_scheduling"%string, <["customer_response" := VStr "yes"]> state)
             else ("handle_decline"%string, <["customer_response" := VStr "no"]> state)), w).
Proof.
  intros Hscore. unfold should_schedule, getitem, mbind, M_bind. rewrite Hscore.
  simpl. by destruct (80 <? n).
Qed.

Lemma should_schedule_inv (state state' : WorkflowState) (w w' : World) (label : string) :
  should_schedule state w = (Return (label, state'), w') →
  ∃ n, state !! "drps_score" = Some (VInt n).
Proof.
  unfold should_schedule, getitem, mbind, M_bind.
  destruct (state !! "drps_score") as [[s|n|row]|]; simpl; try discriminate.
  eauto.
Qed.

(** C4. With an integer score in the state, the router answers
    "continue_to_scheduling" exactly when the score is above 80 and
    "handle_decline" exactly when it is at most 80; at 81 it continues and
    at 80 it declines. *)
Theorem should_schedule_threshold (state : WorkflowState) (w : World) (n : Z) :
  state !! "drps_score" = Some (VInt n) →
  (label_of (should_schedule state w) = Some "continue_to_scheduling"%string ↔ 80 < n)
  ∧ (label_of (should_schedule state w) = Some "handle_decline"%string ↔ n ≤ 80)
  ∧ label_of (should_schedule (<["drps_score" := VInt 81]> state) w)
      = Some "continue_to_scheduling"%string
  ∧ label_of (should_schedule (<["drps_score" := VInt 80]> state) w)
      = Some "handle_decline"%string.
Proof.
  intros Hscore. rewrite (should_schedule_run _ _ _ Hscore).
  rewrite !(should_schedule_run _ _ _ (lookup_insert_eq _ _ _)).
  unfold label_of. simpl.
  destruct (Z.ltb_spec 80 n); simpl; repeat split; intros; try done; try lia.
Qed.

Lemma should_schedule_threshold_witness :
  engaged_state !! "drps_score" = Some (VInt 95)
  ∧ (label_of (should_schedule engaged_state demo_world)
       = Some "continue_to_scheduling"%string ↔ 80 < 95).
Proof.
  assert (H : engaged_state !! "drps_score" = Some (VInt 95)) by reflexivity.
  split; [exact H|].
  exact (proj1 (should_schedule_threshold engaged_state demo_world 95 H)).
Defined.

(** C7, as stated, fails: the router overwrites the customer's response
    that the engagement node recorded. *)
Lemma should_schedule_overwrites_customer_response :
  low_priority_state !! "customer_response" = Some (VStr "yes")
  ∧ should_schedule low_priority_state demo_world
      = (Return ("handle_decline"%string,
                 <["customer_response" := VStr "no"]> low_priority_state), demo_world)
  ∧ <["customer_response" := VStr "no"]> low_priority_state ≠ low_priority_state.
Proof.
  split; [reflexivity|]. split.
  - apply (should_schedule_run low_priority_state demo_world 42). reflexivity.
  - intros Heq. apply (f_equal (fun m => m !! "customer_response")) in Heq.
    rewrite lookup_insert_eq in Heq. discriminate.
Qed.

(** C7, amended. The router touches nothing but the "customer_response"
    field: with an integer score it returns its label, leaves the world
    alone and leaves the dict with "customer_response" set to "yes" (when
    it continues) or "no" (when it declines) and every other field as it
    was; without one it raises and hands no dict back. *)
Theorem should_schedule_writes_only_customer_response (state : WorkflowState) (w : World) :
  (∀ n : Z, state !! "drps_score" = Some (VInt n) →
     should_schedule state w =
       (Return (if 80 <? n
                then ("continue_to_scheduling"%string,
                      <["customer_response" := VStr "yes"]> state)
                else ("handle_decline"%string,
                      <["customer_response" := VStr "no"]> state)), w))
  ∧ (∀ (label : string) (state' : WorkflowState) (w' : World),
       should_schedule state w = (Return (label, state'), w') →
       w' = w
       ∧ (∀ key : string, key ≠ "customer_response"%string → state' !! key = state !! key)
       ∧ state' = <["customer_response" :=
                      VStr (if String.eqb label "continue_to_scheduling"
                            then "yes" else "no")]> state
       ∧ (label = "continue_to_scheduling" ∨ label = "handle_decline")%string)
  ∧ ((∀ n : Z, state !! "drps_score" ≠ Some (VInt n)) →
       ∃ e, should_schedule state w = (Raise e, w)).
Proof.
  split; [intros n; apply should_schedule_run|]. split.
  - intros label state' w' Hrun.
    destruct (should_schedule_inv _ _ _ _ _ Hrun) as [n Hscore].
    rewrite (should_schedule_run _ _ _ Hscore) in Hrun.
    destruct (80 <? n); injection Hrun as <- <- <-; simpl;
      (split; [done|split; [|split; [done|auto]]]);
      intros key Hkey; by rewrite lookup_insert_ne.
  - intros Hnone. unfold should_schedule, getitem, mbind, M_bind.
    destruct (state !! "drps_score") as [[s|n|row]|]; simpl; eauto.
    by destruct (Hnone n).
Qed.

Lemma should_schedule_writes_only_customer_response_witness :
  low_priority_state !! "drps_score" = Some (VInt 42)
  ∧ should_schedule low_priority_state demo_world
    = (Return ("handle_decline"%string,
               <["customer_response" := VStr "no"]> low_priority_state), demo_world)
  ∧ <["customer_response" := VStr "no"]> low_priority_state !! "diagnosis"
      = low_priority_state !! "diagnosis".
Proof.
  assert (Hscore : low_priority_state !! "drps_score" = Some (VInt 42)) by reflexivity.
  pose proof (proj1 (should_schedule_writes_only_customer_response
                       low_priority_state demo_world) 42 Hscore) as Hrun.
  change (80 <? 42) with false in Hrun.
  split; [exact Hscore|]. split; [exact Hrun|].
  refine (proj1 (proj2 (proj1 (proj2 (should_schedule_writes_only_customer_response
                                        low_priority_state demo_world)) _ _ _ Hrun)) _ _).
  discriminate.
Defined.

(** ** Diagnosis and the priority score *)

Lemma get_diagnosis_and_drps_run (vehicle_id : value) (row : TelemetryRow) (w : World)
    (s : SafetyRow) (p : CustomerRow) :
  let cat := checked_component (safety_impact_scores w) (model_answer w vehicle_id row) in
  rows_where component (VStr cat) (safety_impact_scores w) = [s] →
  rows_where c_vehicle_id vehicle_id (customer_profiles w) = [p] →
  (∀ r, vehicle_id ≠ VDict r) →
  get_diagnosis_and_drps vehicle_id (VDict row) w
    = (Return (cat, drps_formula (safety_impact_score s) (customer_factor_of p)),
       after_diagnosis_effects w).
Proof.
  intros cat Hs Hp Hv.
  unfold get_diagnosis_and_drps, mbind, M_bind, read_csv, llm_invoke, as_dict, loc. simpl.
  fold (model_answer w vehicle_id row). fold cat. rewrite Hs. simpl.
  destruct vehicle_id as [v|n|r]; [| |by destruct (Hv r)]; simpl in *; by rewrite Hp.
Qed.

Lemma get_diagnosis_and_drps_inv (vehicle_id anomaly : value) (w w' : World)
    (cat : string) (d : Z) :
  get_diagnosis_and_drps vehicle_id anomaly w = (Return (cat, d), w') →
  ∃ row s p,
    anomaly = VDict row
    ∧ cat = checked_component (safety_impact_scores w) (model_answer w vehicle_id row)
    ∧ rows_where component (VStr cat) (safety_impact_scores w) = [s]
    ∧ rows_where c_vehicle_id vehicle_id (customer_profiles w) = [p]
    ∧ d = drps_formula (safety_impact_score s) (customer_factor_of p)
    ∧ w' = after_diagnosis_effects w.
Proof.
  unfold get_diagnosis_and_drps, mbind, M_bind, read_csv, llm_invoke, as_dict, loc. simpl.
  destruct anomaly as [?|?|row]; simpl; try discriminate.
  fold (model_answer w vehicle_id row).
  set (cat0 := checked_component (safety_impact_scores w) (model_answer w vehicle_id row)).
  destruct (rows_where _ _ (safety_impact_scores w)) as [|s [|s2 ss]] eqn:Hs; simpl; try discriminate.
  - destruct vehicle_id as [v|n|r]; simpl; try discriminate;
      destruct (rows_where _ _ (customer_profiles w)) as [|p [|p2 ps]] eqn:Hp; simpl;
      try discriminate; intros [= <- <- <-]; by exists row, s, p.
  - destruct vehicle_id as [v|n|r]; simpl; try discriminate;
      destruct (rows_where _ _ (customer_profiles w)) as [|p [|p2 ps]] eqn:Hp; simpl;
      discriminate.
Qed.

Lemma rows_where_singleton {A} (key : A → string) (v : value) (rows : list A) (x : A) :
  rows_where key v rows = [x] → x ∈ rows ∧ str_eq_value (key x) v = true.
Proof.
  intros Hf. assert (Hx : x ∈ rows_where key v rows) by (rewrite Hf; left).
  unfold rows_where in Hx. apply list_elem_of_filter in Hx. tauto.
Qed.

Lemma filter_none {A} (P : A → Prop) `{∀ x, Decision (P x)} (l : list A) :
  filter P l = [] ↔ Forall (fun y => ¬ P y) l.
Proof.
  induction l as [|y l IH]; [by split; [constructor|]|].
  rewrite filter_cons. destruct (decide (P y)) as [Hy|Hy].
  - split; [discriminate | by inversion 1].
  - rewrite IH. split; [by constructor | by inversion 1].
Qed.

Lemma demo_world_as_read : as_read demo_world.
Proof.
  unfold as_read, text_cell, int64. simpl.
  repeat split; repeat (constructor; [repeat split; first [compute_done | lia]|]);
    constructor.
Qed.

Lemma low_priority_world_as_read : as_read low_priority_world.
Proof.
  unfold as_read, text_cell, int64. simpl.
  repeat split; repeat (constructor; [repeat split; first [compute_done | lia]|]);
    constructor.
Qed.

(** *** Rounding to binary64 *)

Lemma round53_pos_bounds (n : Z) :
  0 < n → 2 ^ Z.log2 n ≤ round53_pos n ≤ 2 ^ (Z.log2 n + 1).
Proof.
  intros Hn. pose proof (Z.log2_spec n Hn) as [Hlo Hhi].
  replace (Z.succ (Z.log2 n)) with (Z.log2 n + 1) in Hhi by lia.
  unfold round53_pos. destruct (Z.leb_spec (Z.log2 n - 52) 0) as [Hk|Hk]; [lia|].
  set (k := Z.log2 n - 52) in *.
  assert (Hpk : 0 < 2 ^ k) by (apply Z.pow_pos_nonneg; lia).
  assert (HL : 2 ^ Z.log2 n = 2 ^ 52 * 2 ^ k)
    by (rewrite <- Z.pow_add_r by lia; f_equal; lia).
  assert (HL1 : 2 ^ (Z.log2 n + 1) = 2 ^ 53 * 2 ^ k)
    by (rewrite <- Z.pow_add_r by lia; f_equal; lia).
  rewrite HL, HL1 in *.
  assert (Hq1 : 2 ^ 52 ≤ n / 2 ^ k) by (apply Z.div_le_lower_bound; lia).
  assert (Hq2 : n / 2 ^ k < 2 ^ 53) by (apply Z.div_lt_upper_bound; lia).
  destruct (round_up _ _ _); nia.
Qed.

Lemma round_up_mono (q r1 r2 half : Z) :
  r1 ≤ r2 → round_up q r1 half = true → round_up q r2 half = true.
Proof.
  unfold round_up. intros Hr.
  destruct (Z.ltb_spec r1 half), (Z.ltb_spec r2 half), (Z.ltb_spec half r1),
    (Z.ltb_spec half r2); try lia; try discriminate; auto.
Qed.

Lemma round53_pos_mono (x y : Z) : 0 < x → x ≤ y → round53_pos x ≤ round53_pos y.
Proof.
  intros Hx Hxy.
  pose proof (Z.log2_le_mono x y Hxy) as HL.
  destruct (Z.eq_dec (Z.log2 x) (Z.log2 y)) as [Heq|Hne].
  - unfold round53_pos. rewrite <- Heq.
    destruct (Z.leb_spec (Z.log2 x - 52) 0) as [Hk|Hk]; [lia|].
    set (k := Z.log2 x - 52) in *.
    assert (Hpk : 0 < 2 ^ k) by (apply Z.pow_pos_nonneg; lia).
    pose proof (Z.div_mod x (2 ^ k) ltac:(lia)) as Ex.
    pose proof (Z.div_mod y (2 ^ k) ltac:(lia)) as Ey.
    pose proof (Z.mod_pos_bound x (2 ^ k) Hpk) as Bx.
    pose proof (Z.mod_pos_bound y (2 ^ k) Hpk) as By.
    assert (Hq : x / 2 ^ k ≤ y / 2 ^ k) by (apply Z.div_le_mono; lia).
    destruct (Z.eq_dec (x / 2 ^ k) (y / 2 ^ k)) as [Hqe|Hqn].
    + rewrite <- Hqe in *.
      assert (Hr : x mod 2 ^ k ≤ y mod 2 ^ k) by nia.
      destruct (round_up (x / 2 ^ k) (x mod 2 ^ k) _) eqn:E1.
      * rewrite (round_up_mono _ _ _ _ Hr E1). lia.
      * destruct (round_up _ (y mod 2 ^ k) _); nia.
    + destruct (round_up (x / 2 ^ k) _ _), (round_up (y / 2 ^ k) _ _); nia.
  - pose proof (round53_pos_bounds x Hx) as [_ Hux].
    pose proof (round53_pos_bounds y ltac:(lia)) as [Hly _].
    assert (2 ^ (Z.log2 x + 1) ≤ 2 ^ Z.log2 y)
      by (apply Z.pow_le_mono_r; [lia|]; pose proof (Z.log2_nonneg x); lia).
    lia.
Qed.

Lemma round53_pos_nonneg (n : Z) : 0 ≤ n → 0 ≤ round53_pos n.
Proof.
  intros Hn. destruct (Z.eq_dec n 0) as [->|Hne]; [vm_compute; discriminate|].
  pose proof (round53_pos_bounds n ltac:(lia)) as [H _].
  pose proof (Z.pow_nonneg 2 (Z.log2 n) ltac:(lia)). lia.
Qed.

Lemma round53_mono (x y : Z) : x ≤ y → round53 x ≤ round53 y.
Proof.
  intros Hxy. unfold round53.
  destruct (Z.lt_trichotomy x 0) as [Hx|[->|Hx]];
    destruct (Z.lt_trichotomy y 0) as [Hy|[->|Hy]]; try lia.
  - rewrite !Z.sgn_neg by lia. rewrite !Z.abs_neq by lia.
    pose proof (round53_pos_mono (- y) (- x) ltac:(lia) ltac:(lia)). lia.
  - rewrite Z.sgn_neg by lia. pose proof (round53_pos_nonneg (Z.abs x) ltac:(lia)).
    change (Z.sgn 0 * round53_pos (Z.abs 0)) with 0. lia.
  - rewrite Z.sgn_neg, Z.sgn_pos by lia.
    pose proof (round53_pos_nonneg (Z.abs x) ltac:(lia)).
    pose proof (round53_pos_nonneg (Z.abs y) ltac:(lia)). lia.
  - change (Z.sgn 0 * round53_pos (Z.abs 0)) with 0.
    rewrite (Z.sgn_pos y) by lia. pose proof (round53_pos_nonneg (Z.abs y) ltac:(lia)). lia.
  - rewrite !Z.sgn_pos by lia. rewrite !Z.abs_eq by lia.
    pose proof (round53_pos_mono x y ltac:(lia) ltac:(lia)). lia.
Qed.

Lemma wrap64_id (z : Z) : int64 z → wrap64 z = z.
Proof. unfold int64, wrap64. intros H. rewrite Z.mod_small; lia. Qed.

(** 0.92 is read as the binary64 nearest to it: [failure_risk_prob] ticks
    are within half a tick of 92/100, and a tick is the spacing there. *)
Lemma failure_risk_prob_nearest :
  2 ^ 52 ≤ failure_risk_prob < 2 ^ 53
  ∧ 2 * Z.abs (100 * failure_risk_prob - 92 * 2 ^ 53) < 100.
Proof. vm_compute. repeat split; discriminate. Qed.

(** The score at some inputs where the rounding and the wrap-around show,
    as the source computes them. *)
Lemma drps_formula_samples :
  drps_formula 10 9 = 95
  ∧ drps_formula 15 9 = 120
  ∧ drps_formula 7 9 = 80
  ∧ drps_formula 8 5 = 77
  ∧ drps_formula (-8) 5 = -2
  ∧ drps_formula 1801439850948199 9 = 9007199254741042
  ∧ drps_formula 2000000000000000000 9 = -8446744073709551616.
Proof. vm_compute. repeat split. Qed.

Lemma drps_formula_mono (s1 s2 cf : Z) :
  int64 (s1 * 5) → int64 (s2 * 5) → s1 ≤ s2 → drps_formula s1 cf ≤ drps_formula s2 cf.
Proof.
  intros H1 H2 Hle. unfold drps_formula, int_of_float, fadd, float_of_int.
  rewrite !wrap64_id by done.
  apply Z.quot_le_mono; [reflexivity|].
  apply round53_mono, Z.add_le_mono_r, round53_mono, Z.add_le_mono_r, round53_mono. lia.
Qed.

(** C8, as stated, fails: the product safety_score * 5 is an int64
    product and wraps.  The severity 2 * 10^18 is an int64 cell and larger
    than 10, yet it scores far below what 10 scores. *)
Lemma drps_decreases_across_int64_wrap :
  int64 10 ∧ int64 2000000000000000000
  ∧ 10 ≤ 2000000000000000000
  ∧ drps_formula 10 9 = 95
  ∧ drps_formula 2000000000000000000 9 = -8446744073709551616
  ∧ ¬ (drps_formula 10 9 ≤ drps_formula 2000000000000000000 9).
Proof.
  unfold int64. repeat split; vm_compute; congruence.
Qed.

(** C8, amended. With the failure-risk sub-score (the constant of the
    source) and the context sub-score (the customer factor of one profile)
    fixed, the priority score does not decrease when the severity grows, as
    long as five times the severity stays within the 64-bit integers, that
    is, as long as the product safety_score * 5 does not wrap. *)
Theorem drps_monotone_in_severity (s1 s2 : Z) (p : CustomerRow) :
  int64 (s1 * 5) → int64 (s2 * 5) → s1 ≤ s2 →
  drps_formula s1 (customer_factor_of p) ≤ drps_formula s2 (customer_factor_of p).
Proof. apply drps_formula_mono. Qed.

Lemma drps_monotone_in_severity_witness :
  int64 (8 * 5) ∧ int64 (10 * 5) ∧ 8 ≤ 10
  ∧ drps_formula 8 (customer_factor_of neha) ≤ drps_formula 10 (customer_factor_of neha).
Proof.
  assert (H1 : int64 (8 * 5)) by (unfold int64; lia).
  assert (H2 : int64 (10 * 5)) by (unfold int64; lia).
  assert (H3 : 8 ≤ 10) by lia.
  split; [exact H1|]. split; [exact H2|]. split; [exact H3|].
  exact (drps_monotone_in_severity 8 10 neha H1 H2 H3).
Defined.

(** C9, as stated, fails: nothing clamps the score, and a severity table
    that rates the brakes at 15 gives a highway driver the score 120. *)
Lemma drps_exceeds_100_on_overscaled_table :
  get_diagnosis_and_drps (VStr "veh_007") (VDict flagged_reading) overscaled_world
    = (Return ("Brakes"%string, 120), after_diagnosis_effects overscaled_world)
  ∧ ¬ (0 ≤ 120 ≤ 100).
Proof.
  split; [vm_compute; reflexivity | lia].
Qed.

(** C9, amended. When the severity table keeps to the scale from 0 to 10
    (as the table written by generate_data.py does), every score that the
    diagnosis step returns is an integer between 37 and 95, hence between
    0 and 100. *)
Theorem drps_within_0_100_on_ten_point_scale
    (vehicle_id anomaly : value) (w w' : World) (cat : string) (d : Z) :
  (∀ r, r ∈ safety_impact_scores w → 0 ≤ safety_impact_score r ≤ 10) →
  get_diagnosis_and_drps vehicle_id anomaly w = (Return (cat, d), w') →
  0 ≤ d ≤ 100 ∧ 37 ≤ d ≤ 95.
Proof.
  intros Hscale Hrun.
  destruct (get_diagnosis_and_drps_inv _ _ _ _ _ _ Hrun)
    as (row & s & p & _ & _ & Hs & _ & -> & _).
  apply rows_where_singleton in Hs as [Hs _]. specialize (Hscale s Hs).
  assert (Hcases : safety_impact_score s = 0 ∨ safety_impact_score s = 1
            ∨ safety_impact_score s = 2 ∨ safety_impact_score s = 3
            ∨ safety_impact_score s = 4 ∨ safety_impact_score s = 5
            ∨ safety_impact_score s = 6 ∨ safety_impact_score s = 7
            ∨ safety_impact_score s = 8 ∨ safety_impact_score s = 9
            ∨ safety_impact_score s = 10) by lia.
  unfold customer_factor_of.
  destruct (String.eqb (driving_style p) "Highway");
    repeat (destruct Hcases as [->|Hcases]; [vm_compute; repeat split; discriminate|]);
    rewrite Hcases; vm_compute; repeat split; discriminate.
Qed.

Lemma drps_within_0_100_on_ten_point_scale_witness :
  (∀ r, r ∈ safety_impact_scores demo_world → 0 ≤ safety_impact_score r ≤ 10)
  ∧ get_diagnosis_and_drps (VStr "veh_007") (VDict flagged_reading) demo_world
      = (Return ("Brakes"%string, 95), after_diagnosis_effects demo_world)
  ∧ (0 ≤ 95 ≤ 100 ∧ 37 ≤ 95 ≤ 95).
Proof.
  assert (Hscale : ∀ r, r ∈ safety_impact_scores demo_world → 0 ≤ safety_impact_score r ≤ 10).
  { intros r Hr. simpl in Hr. unfold safety_scores in Hr.
    repeat (apply elem_of_cons in Hr as [->|Hr]; [simpl; lia|]). inversion Hr. }
  assert (Hrun : get_diagnosis_and_drps (VStr "veh_007") (VDict flagged_reading) demo_world
      = (Return ("Brakes"%string, 95), after_diagnosis_effects demo_world)).
  { vm_compute. reflexivity. }
  split; [exact Hscale|]. split; [exact Hrun|].
  exact (drps_within_0_100_on_ten_point_scale _ _ _ _ _ _ Hscale Hrun).
Defined.

(** ** Calls through the wrapper *)

Lemma wrapper_allowed {A} (r t : string) (f : M A) (w : World) :
  permits r t = true →
  ueba_security_wrapper r t f w = scoped f (emit (EvAllowed r t) w).
Proof.
  intros Hp. unfold ueba_security_wrapper. rewrite Hp. reflexivity.
Qed.

Lemma wrapper_denied {A} (r t : string) (f : M A) (w : World) :
  permits r t = false →
  ueba_security_wrapper r t f w
    = (Raise (PermissionError (denial_message r t)), emit (EvDenied r t) w).
Proof.
  intros Hp. unfold ueba_security_wrapper. rewrite Hp. reflexivity.
Qed.

Lemma diagnosis_node_inv (state state' : WorkflowState) (w w' : World) :
  diagnosis_node state w = (Return state', w') →
  ∃ vehicle_id anomaly cat d w1,
    state !! "vehicle_id" = Some vehicle_id
    ∧ state !! "anomaly_data" = Some anomaly
    ∧ get_diagnosis_and_drps vehicle_id anomaly (emit (EvAllowed "DiagnosisAgent" "llm_invoke") w)
        = (Return (cat, d), w1)
    ∧ w' = emit EvExit w1
    ∧ state' = <["drps_score" := VInt d]> (<["diagnosis" := VStr cat]> state).
Proof.
  unfold diagnosis_node, getitem. unfold mbind at 1 2 3, M_bind.
  destruct (state !! "vehicle_id") as [v|]; simpl; [|discriminate].
  destruct (state !! "anomaly_data") as [a|]; simpl; [|discriminate].
  rewrite wrapper_allowed by reflexivity. unfold scoped.
  destruct (get_diagnosis_and_drps v a _) as [[[cat d]|e] w1] eqn:Hrun; simpl; [|discriminate].
  intros [= <- <-]. by exists v, a, cat, d, w1.
Qed.

Lemma diagnosis_node_run (state : WorkflowState) (w : World) (vehicle_id : value)
    (row : TelemetryRow) (s : SafetyRow) (p : CustomerRow) :
  let cat := checked_component (safety_impact_scores w) (model_answer w vehicle_id row) in
  state !! "vehicle_id" = Some vehicle_id →
  state !! "anomaly_data" = Some (VDict row) →
  rows_where component (VStr cat) (safety_impact_scores w) = [s] →
  rows_where c_vehicle_id vehicle_id (customer_profiles w) = [p] →
  (∀ r, vehicle_id ≠ VDict r) →
  diagnosis_node state w
    = (Return (diagnosed state cat
                 (drps_formula (safety_impact_score s) (customer_factor_of p))),
       emit EvExit (after_diagnosis_effects (emit (EvAllowed "DiagnosisAgent" "llm_invoke") w))).
Proof.
  intros cat Hv Ha Hs Hp Hnd.
  unfold diagnosis_node, getitem. unfold mbind at 1 2 3, M_bind. rewrite Hv, Ha. simpl.
  rewrite wrapper_allowed by reflexivity. unfold scoped.
  rewrite (get_diagnosis_and_drps_run vehicle_id row _ s p); [reflexivity|done..].
Qed.

Lemma rows_where_unique_label {A} (key : A → string) (label : string) (rows : list A) :
  NoDup (map key rows) → label ∈ map key rows →
  ∃ x, rows_where key (VStr label) rows = [x] ∧ key x = label.
Proof.
  unfold rows_where. induction rows as [|r rows IH]; simpl.
  - intros _ Hin. inversion Hin.
  - intros Hnodup Hin. apply NoDup_cons in Hnodup as [Hfresh Hnodup].
    rewrite filter_cons. destruct (String.eqb_spec (key r) label) as [Heq|Hne].
    + exists r. split; [|done]. rewrite decide_True by done. f_equal.
      apply (proj2 (filter_none _ _)), Forall_forall. intros x Hx Hkey.
      apply String.eqb_eq in Hkey. apply Hfresh. rewrite Heq, <- Hkey.
      by apply list_elem_of_fmap_2.
    + rewrite decide_False by done.
      apply elem_of_cons in Hin as [Hin|Hin]; [congruence|]. by apply IH.
Qed.

(** C6. The category that the diagnosis node writes is the model's answer
    when the severity table lists the answer, and "Brakes" when it does
    not: a function of the answer and the table alone.
    - Whenever the node writes a category, that category is listed in the
      table, and the severity that enters the score written next to it is
      the one the table gives for that category.
    - The substitution happens for every reply (the reply of the model is
      part of the world, which is arbitrary here).  Over files as read,
      when the table lists each component once and lists "Brakes", and the
      vehicle has one profile row, the node returns whatever the model
      replied, and writes the answer if the table lists it and "Brakes" if
      it does not, together with the score computed from the table's
      severity for the category written. *)
Theorem diagnosis_category_is_valid (state : WorkflowState) (w : World) :
  let valid_components := map component (safety_impact_scores w) in
  (∀ (state' : WorkflowState) (w' : World),
     diagnosis_node state w = (Return state', w') →
     ∃ vehicle_id row cat s p,
       state !! "vehicle_id" = Some vehicle_id
       ∧ state !! "anomaly_data" = Some (VDict row)
       ∧ state' !! "diagnosis" = Some (VStr cat)
       ∧ cat ∈ valid_components
       ∧ cat = checked_component (safety_impact_scores w) (model_answer w vehicle_id row)
       ∧ (model_answer w vehicle_id row ∈ valid_components
            → cat = model_answer w vehicle_id row)
       ∧ (model_answer w vehicle_id row ∉ valid_components → cat = "Brakes"%string)
       ∧ s ∈ safety_impact_scores w ∧ component s = cat
       ∧ state' !! "drps_score"
           = Some (VInt (drps_formula (safety_impact_score s) (customer_factor_of p))))
  ∧ (∀ (vehicle_id : string) (row : TelemetryRow) (p : CustomerRow),
       as_read w →
       state !! "vehicle_id" = Some (VStr vehicle_id) →
       state !! "anomaly_data" = Some (VDict row) →
       NoDup valid_components →
       "Brakes"%string ∈ valid_components →
       rows_where c_vehicle_id (VStr vehicle_id) (customer_profiles w) = [p] →
       ∃ cat s state' w',
         diagnosis_node state w = (Return state', w')
         ∧ state' !! "diagnosis" = Some (VStr cat)
         ∧ (model_answer w (VStr vehicle_id) row ∈ valid_components
              → cat = model_answer w (VStr vehicle_id) row)
         ∧ (model_answer w (VStr vehicle_id) row ∉ valid_components
              → cat = "Brakes"%string)
         ∧ cat ∈ valid_components
         ∧ rows_where component (VStr cat) (safety_impact_scores w) = [s]
         ∧ state' !! "drps_score"
             = Some (VInt (drps_formula (safety_impact_score s) (customer_factor_of p)))).
Proof.
  intros valid_components. subst valid_components. split.
  - intros state' w' Hnode.
    destruct (diagnosis_node_inv _ _ _ _ Hnode)
      as (v & a & cat & d & w1 & Hv & Ha & Hrun & -> & ->).
    destruct (get_diagnosis_and_drps_inv _ _ _ _ _ _ Hrun)
      as (row & s & p & -> & Hcat & Hs & _ & -> & _).
    change (safety_impact_scores (emit _ w)) with (safety_impact_scores w) in *.
    change (model_answer (emit (EvAllowed "DiagnosisAgent" "llm_invoke") w) v row)
      with (model_answer w v row) in *.
    apply rows_where_singleton in Hs as [Hs Hlabel].
    simpl in Hlabel. apply String.eqb_eq in Hlabel.
    exists v, row, cat, s, p.
    split; [done|]. split; [done|].
    split; [by rewrite lookup_insert_ne, lookup_insert_eq|].
    split; [rewrite <- Hlabel; by apply list_elem_of_fmap_2|].
    split; [done|].
    split; [|split; [|split; [done|split; [done|by rewrite lookup_insert_eq]]]].
    + intros Hin. apply py_in_elem_of in Hin.
      rewrite Hcat. unfold checked_component. by rewrite Hin.
    + intros Hnin. apply py_in_false in Hnin.
      rewrite Hcat. unfold checked_component. by rewrite Hnin.
  - intros vehicle_id row p _ Hv Ha Hnodup Hdefault Hp.
    set (answer := model_answer w (VStr vehicle_id) row).
    set (cat := checked_component (safety_impact_scores w) answer).
    assert (Hlisted : answer ∈ (map component (safety_impact_scores w)) → cat = answer).
    { intros Hin. apply py_in_elem_of in Hin. unfold cat, checked_component.
      by rewrite Hin. }
    assert (Hsubst : answer ∉ (map component (safety_impact_scores w)) → cat = "Brakes"%string).
    { intros Hnin. apply py_in_false in Hnin. unfold cat, checked_component.
      by rewrite Hnin. }
    assert (Hcat : cat ∈ (map component (safety_impact_scores w))).
    { destruct (decide (answer ∈ (map component (safety_impact_scores w)))) as [Hin|Hnin].
      - by rewrite (Hlisted Hin).
      - by rewrite (Hsubst Hnin). }
    destruct (rows_where_unique_label component cat (safety_impact_scores w) Hnodup Hcat)
      as (s & Hs & _).
    exists cat, s. eexists _, _.
    split; [apply (diagnosis_node_run state w (VStr vehicle_id) row s p); done|].
    unfold diagnosed. split; [by simplify_map_eq|].
    split; [done|]. split; [done|]. split; [done|]. split; [done|].
    by simplify_map_eq.
Qed.

Lemma diagnosis_category_is_valid_witness :
  as_read demo_world
  ∧ analysed_state !! "vehicle_id" = Some (VStr "veh_007")
  ∧ analysed_state !! "anomaly_data" = Some (VDict flagged_reading)
  ∧ NoDup (map component (safety_impact_scores demo_world))
  ∧ "Brakes"%string ∈ map component (safety_impact_scores demo_world)
  ∧ rows_where c_vehicle_id (VStr "veh_007") (customer_profiles demo_world) = [neha]
  ∧ model_answer demo_world (VStr "veh_007") flagged_reading = "Brake Master Cylinder"%string
  ∧ ("Brake Master Cylinder"%string ∉ map component (safety_impact_scores demo_world))
  ∧ ∃ state' w',
      diagnosis_node analysed_state demo_world = (Return state', w')
      ∧ state' !! "diagnosis" = Some (VStr "Brakes")
      ∧ state' !! "drps_score" = Some (VInt 95).
Proof.
  assert (Hv : analysed_state !! "vehicle_id" = Some (VStr "veh_007")) by reflexivity.
  assert (Ha : analysed_state !! "anomaly_data" = Some (VDict flagged_reading))
    by reflexivity.
  assert (Hnodup : NoDup (map component (safety_impact_scores demo_world)))
    by compute_done.
  assert (Hdefault : "Brakes"%string ∈ map component (safety_impact_scores demo_world))
    by compute_done.
  assert (Hp : rows_where c_vehicle_id (VStr "veh_007") (customer_profiles demo_world)
               = [neha]) by (vm_compute; reflexivity).
  assert (Hanswer : model_answer demo_world (VStr "veh_007") flagged_reading
                    = "Brake Master Cylinder"%string) by (vm_compute; reflexivity).
  assert (Hoff : "Brake Master Cylinder"%string
                 ∉ map component (safety_impact_scores demo_world)) by compute_done.
  split; [exact demo_world_as_read|]. do 7 (split; [assumption|]).
  destruct (proj2 (diagnosis_category_is_valid analysed_state demo_world)
              "veh_007"%string flagged_reading neha demo_world_as_read Hv Ha Hnodup Hdefault Hp)
    as (cat & s & state' & w' & Hnode & Hcat & _ & Hsubst & _ & Hs & Hscore).
  rewrite Hanswer in Hsubst. specialize (Hsubst Hoff). subst cat.
  assert (Hs' : s = {| component := "Brakes"; safety_impact_score := 10 |}).
  { assert (Hcomputed : rows_where component (VStr "Brakes") (safety_impact_scores demo_world)
              = [ {| component := "Brakes"; safety_impact_score := 10 |} ])
      by (vm_compute; reflexivity).
    rewrite Hcomputed in Hs. by injection Hs. }
  subst s. exists state', w'. split; [exact Hnode|]. split; [exact Hcat | exact Hscore].
Defined.

(** ** The feedback node *)

Lemma perform_rca_and_update_score_run (vehicle_id : string) (w : World)
    (r : RcaRow) (rs : list RcaRow) (c : CustomerRow) (cs : list CustomerRow) :
  rca_records w = r :: rs →
  rows_where c_vehicle_id (VStr vehicle_id) (customer_profiles w) = c :: cs →
  perform_rca_and_update_score (VStr vehicle_id) w =
    (Return (insight_text (rca_id r)
               (Z.of_nat (length (with_dtc_code "C0204" (maintenance_logs w)))),
             wrap64 (health_score c + 50)),
     emit (EvCap (CapWriteCsv customers_csv))
       (store_customer_profiles
          (map (set_health_score (VStr vehicle_id) (wrap64 (health_score c + 50)))
             (customer_profiles w))
          (emit (EvCap (CapReadCsv customers_csv))
             (emit (EvCap (CapReadCsv maintenance_csv)) (emit (EvCap (CapReadCsv rca_csv)) w))))).
Proof.
  intros Hrca Hrows.
  unfold perform_rca_and_update_score, mbind, M_bind, read_csv, to_csv_customers. simpl.
  rewrite Hrca, Hrows. reflexivity.
Qed.

Lemma feedback_and_insight_node_run (state : WorkflowState) (w : World) (vehicle_id : string)
    (r : RcaRow) (rs : list RcaRow) (c : CustomerRow) (cs : list CustomerRow) :
  state !! "vehicle_id" = Some (VStr vehicle_id) →
  rca_records w = r :: rs →
  rows_where c_vehicle_id (VStr vehicle_id) (customer_profiles w) = c :: cs →
  feedback_and_insight_node state w =
    (Return (<["final_insight" :=
               VStr (insight_text (rca_id r)
                       (Z.of_nat (length (with_dtc_code "C0204" (maintenance_logs w)))))]> state),
     emit EvExit (emit (EvCap (CapWriteCsv customers_csv))
       (store_customer_profiles
          (map (set_health_score (VStr vehicle_id) (wrap64 (health_score c + 50)))
             (customer_profiles w))
          (emit (EvCap (CapReadCsv customers_csv))
             (emit (EvCap (CapReadCsv maintenance_csv)) (emit (EvCap (CapReadCsv rca_csv))
                (emit (EvAllowed "FeedbackAgent" "read_csv") w))))))).
Proof.
  intros Hv Hrca Hrows.
  unfold feedback_and_insight_node, getitem. unfold mbind at 1 2, M_bind. rewrite Hv. simpl.
  rewrite wrapper_allowed by reflexivity. unfold scoped.
  rewrite (perform_rca_and_update_score_run vehicle_id _ r rs c cs) by done.
  reflexivity.
Qed.

Lemma as_read_health_score (w : World) (vehicle_id : value) (c : CustomerRow)
    (cs : list CustomerRow) :
  as_read w →
  rows_where c_vehicle_id vehicle_id (customer_profiles w) = c :: cs →
  int64 (health_score c).
Proof.
  intros (_ & _ & Hprofiles & _) Hrows.
  assert (Hc : c ∈ rows_where c_vehicle_id vehicle_id (customer_profiles w))
    by (rewrite Hrows; left).
  unfold rows_where in Hc. apply list_elem_of_filter in Hc as [_ Hc].
  rewrite Forall_forall in Hprofiles. by apply Hprofiles in Hc as (_ & _ & _ & _ & Hc).
Qed.

(** C10 does not hold of the code.  The count that the feedback node
    reports is the number of maintenance records coded with the literal
    'C0204'; the node is handed the vehicle only, so two states with the
    same vehicle get the same insight whatever was diagnosed.  The rest is
    as the claim says: the insight goes to "final_insight", and the profiles
    are rewritten with the score of the vehicle's first row plus 50 (an
    int64 sum) in every row of the vehicle and the other rows untouched. *)
Theorem feedback_node_counts_C0204_and_adds_50
    (state : WorkflowState) (w : World) (vehicle_id : string)
    (r : RcaRow) (rs : list RcaRow) (c : CustomerRow) (cs : list CustomerRow) :
  as_read w →
  state !! "vehicle_id" = Some (VStr vehicle_id) →
  rca_records w = r :: rs →
  rows_where c_vehicle_id (VStr vehicle_id) (customer_profiles w) = c :: cs →
  let recurrence_count := Z.of_nat (length (with_dtc_code "C0204" (maintenance_logs w))) in
  ∃ w',
    feedback_and_insight_node state w
      = (Return (<["final_insight" := VStr (insight_text (rca_id r) recurrence_count)]> state), w')
    ∧ (∀ other : WorkflowState, other !! "vehicle_id" = Some (VStr vehicle_id) →
         feedback_and_insight_node other w
           = (Return (<["final_insight" := VStr (insight_text (rca_id r) recurrence_count)]>
                        other), w'))
    ∧ customer_profiles w'
        = map (set_health_score (VStr vehicle_id) (wrap64 (health_score c + 50)))
            (customer_profiles w)
    ∧ (health_score c + 50 < 2 ^ 63 →
       ∀ (i : nat) (row : CustomerRow), customer_profiles w !! i = Some row →
         ∃ row', customer_profiles w' !! i = Some row'
           ∧ (c_vehicle_id row = vehicle_id → health_score row' = health_score c + 50)
           ∧ (c_vehicle_id row ≠ vehicle_id → row' = row))
    ∧ maintenance_logs w' = maintenance_logs w
    ∧ rca_records w' = rca_records w
    ∧ rev (trace w') = rev (trace w) ++ feedback_events.
Proof.
  intros Hread Hv Hrca Hrows recurrence_count.
  pose proof (as_read_health_score _ _ _ _ Hread Hrows) as Hint.
  eexists. split; [by apply (feedback_and_insight_node_run state w vehicle_id r rs c cs)|].
  split; [intros other Hother;
          by apply (feedback_and_insight_node_run other w vehicle_id r rs c cs)|].
  split; [reflexivity|]. split; [|split; [reflexivity|split; [reflexivity|]]].
  - intros Hfit i row Hi. simpl. rewrite list_lookup_fmap, Hi. simpl.
    eexists. split; [reflexivity|]. unfold set_health_score. simpl.
    rewrite wrap64_id by (unfold int64 in *; lia).
    destruct (String.eqb_spec (c_vehicle_id row) vehicle_id); simpl; split; intros; done.
  - simpl. by rewrite <- !app_assoc.
Qed.

(** The failing input: a run on a reading coded P0300 that the model
    diagnoses as "Engine", with two brake repairs on file.  No record
    carries the run's code or names its component, yet the insight reports
    the third instance of the defect. *)
Lemma feedback_node_counts_C0204_and_adds_50_witness :
  as_read engine_run_world
  ∧ (∃ final w',
       execute 5 workflow ∅ engine_run_world
         = Some {| visited := ["data_analysis"; "diagnosis"; "customer_engagement";
                               "scheduling"; "feedback_and_insight"]%string;
                   ending := Completed final; world_after := w' |}
       ∧ final !! "diagnosis" = Some (VStr "Engine")
       ∧ final !! "anomaly_data" = Some (VDict misfire_reading)
       ∧ dtc_code misfire_reading = Some "P0300"%string
       ∧ with_dtc_code "P0300" (maintenance_logs engine_run_world) = []
       ∧ with_dtc_code "Engine" (maintenance_logs engine_run_world) = []
       ∧ final !! "final_insight" = Some (VStr (insight_text "RCA-112" 2)))
  ∧ ∃ state w',
      state !! "diagnosis" = Some (VStr "Engine")
      ∧ feedback_and_insight_node state engine_run_world
          = (Return (<["final_insight" := VStr (insight_text "RCA-112" 2)]> state), w')
      ∧ customer_profiles w' = map (set_health_score (VStr "veh_007") 850) profiles.
Proof.
  assert (Hread : as_read engine_run_world).
  { unfold as_read, text_cell, int64. simpl.
    repeat split; repeat (constructor; [repeat split; first [compute_done | lia]|]);
      constructor. }
  split; [exact Hread|]. split.
  - eexists _, _. split; [vm_compute; reflexivity|]. repeat split.
  - pose (state := <["diagnosis" := VStr "Engine"]> scheduled_state).
    destruct (feedback_node_counts_C0204_and_adds_50 state engine_run_world "veh_007"
                _ _ neha [] Hread ltac:(reflexivity) ltac:(reflexivity)
                ltac:(vm_compute; reflexivity)) as (w' & Hrun & _ & Hprofiles & _).
    exists state, w'. split; [reflexivity|]. split; [exact Hrun | exact Hprofiles].
Defined.

(** ** The scheduling node and the rest of the run *)

Lemma payment_history_call_denied (w : World) :
  ueba_security_wrapper "SchedulingAgent" "get_payment_history" payment_history_probe w
    = (Raise (PermissionError payment_history_denial),
       emit (EvDenied "SchedulingAgent" "get_payment_history") w).
Proof. by rewrite wrapper_denied. Qed.

Lemma scheduling_demo_block_run (state : WorkflowState) (w : World) :
  scheduling_demo_block state w
    = (Return (<["error_message" := VStr payment_history_denial]> state),
       emit (EvDenied "SchedulingAgent" "get_payment_history") w).
Proof.
  unfold scheduling_demo_block, try_except_PermissionError, mbind, M_bind.
  by rewrite payment_history_call_denied.
Qed.

Lemma scheduling_node_continues (state : WorkflowState) (w : World) :
  scheduling_node state w
    = scheduling_authorized_calls (<["error_message" := VStr payment_history_denial]> state)
        (emit (EvDenied "SchedulingAgent" "get_payment_history") w).
Proof.
  unfold scheduling_node, mbind, M_bind. by rewrite scheduling_demo_block_run.
Qed.

Lemma scheduling_authorized_calls_run (state : WorkflowState) (w : World)
    (vehicle_id : value) (slots : list string) (slot status : string) :
  state !! "vehicle_id" = Some vehicle_id →
  scheduler_get_slots w = Some slots →
  slots !! 1%nat = Some slot →
  scheduler_book_slot w vehicle_id slot !! "status" = Some status →
  scheduling_authorized_calls state w
    = (Return (<["booking_status" := VStr status]> (<["appointment_slot" := VStr slot]> state)),
       emit EvExit (emit (EvCap (CapHttpPost book_slot_url))
         (emit (EvAllowed "SchedulingAgent" "book_appointment")
            (emit EvExit (emit (EvCap (CapHttpGet get_slots_url))
               (emit (EvAllowed "SchedulingAgent" "get_service_slots") w)))))).
Proof.
  intros Hv Hslots Hslot Hstatus.
  unfold scheduling_authorized_calls. unfold mbind at 1, M_bind.
  rewrite wrapper_allowed by reflexivity.
  unfold scoped, get_service_slots. simpl. rewrite Hslots.
  unfold mbind at 1, M_bind. rewrite Hslot. simpl.
  unfold getitem. unfold mbind at 1, M_bind.
  rewrite lookup_insert_ne by done. rewrite Hv. simpl.
  unfold mbind at 1, M_bind.
  rewrite wrapper_allowed by reflexivity.
  unfold scoped, book_appointment. simpl.
  unfold mbind, M_bind. rewrite Hstatus. reflexivity.
Qed.

Lemma workflow_node_scheduling : nodes workflow !! "scheduling" = Some scheduling_node.
Proof. reflexivity. Qed.

Lemma workflow_node_feedback :
  nodes workflow !! "feedback_and_insight" = Some feedback_and_insight_node.
Proof. reflexivity. Qed.

Lemma workflow_edge_scheduling :
  edges workflow !! "scheduling" = Some (Edge "feedback_and_insight").
Proof. reflexivity. Qed.

Lemma workflow_edge_feedback : edges workflow !! "feedback_and_insight" = Some (Edge END).
Proof. reflexivity. Qed.

Lemma execute_from_edge (fuel : nat) (g : StateGraph) (current next : string)
    (node : WorkflowState → M WorkflowState) (state state' : WorkflowState) (w w' : World) :
  nodes g !! current = Some node →
  node state w = (Return state', w') →
  edges g !! current = Some (Edge next) →
  execute_from (S fuel) g current state w =
    if String.eqb next END
    then Some {| visited := [current]; ending := Completed state'; world_after := w' |}
    else r ← execute_from fuel g next state' w';
         Some {| visited := current :: visited r; ending := ending r;
                 world_after := world_after r |}.
Proof.
  intros Hnode Hrun Hedge. cbn [execute_from]. unfold M in *.
  rewrite Hnode, Hrun, Hedge. reflexivity.
Qed.

(** C5. In every state and world the scheduling node's call of
    'get_payment_history' as 'SchedulingAgent' is denied with a
    PermissionError, the node catches it and stores its message under
    "error_message", and goes on to its authorized calls from there.  When
    those calls and the feedback node get what they need (the vehicle in
    the state, at least two slots, a booking reply with a status, a
    root-cause record, a profile of the vehicle), the run from the
    scheduling node goes through the feedback node to the end and the final
    state still holds the recorded message. *)
Theorem scheduling_denial_is_recorded_and_run_continues (state : WorkflowState) (w : World) :
  let denied_world := emit (EvDenied "SchedulingAgent" "get_payment_history") w in
  let recorded :=
    <["error_message" :=
        VStr "Unauthorized access attempt by SchedulingAgent on tool get_payment_history"]>
      state in
  ueba_security_wrapper "SchedulingAgent" "get_payment_history" payment_history_probe w
    = (Raise (PermissionError
         "Unauthorized access attempt by SchedulingAgent on tool get_payment_history"),
       denied_world)
  ∧ scheduling_demo_block state w = (Return recorded, denied_world)
  ∧ scheduling_node state w = scheduling_authorized_calls recorded denied_world
  ∧ ∀ (vehicle_id : string) (slots : list string) (slot status : string)
      (r : RcaRow) (rs : list RcaRow) (c : CustomerRow) (cs : list CustomerRow),
      state !! "vehicle_id" = Some (VStr vehicle_id) →
      scheduler_get_slots w = Some slots →
      slots !! 1%nat = Some slot →
      scheduler_book_slot w (VStr vehicle_id) slot !! "status" = Some status →
      rca_records w = r :: rs →
      rows_where c_vehicle_id (VStr vehicle_id) (customer_profiles w) = c :: cs →
      ∃ (scheduled final : WorkflowState) (w1 w2 : World),
        scheduling_node state w = (Return scheduled, w1)
        ∧ scheduled
            = <["booking_status" := VStr status]> (<["appointment_slot" := VStr slot]> recorded)
        ∧ rev (trace w1) = rev (trace w) ++ scheduling_events
        ∧ (∀ fuel : nat, (2 ≤ fuel)%nat →
             execute_from fuel workflow "scheduling" state w
               = Some {| visited := ["scheduling"; "feedback_and_insight"]%string;
                         ending := Completed final; world_after := w2 |})
        ∧ final !! "error_message"
            = Some (VStr
                "Unauthorized access attempt by SchedulingAgent on tool get_payment_history")
        ∧ rev (trace w2) = rev (trace w) ++ scheduling_events ++ feedback_events.
Proof.
  intros denied_world recorded.
  split; [apply payment_history_call_denied|].
  split; [apply scheduling_demo_block_run|].
  split; [apply scheduling_node_continues|].
  intros vehicle_id slots slot status r rs c cs Hv Hslots Hslot Hstatus Hrca Hrows.
  assert (Hnode : scheduling_node state w
    = (Return (<["booking_status" := VStr status]> (<["appointment_slot" := VStr slot]> recorded)),
       emit EvExit (emit (EvCap (CapHttpPost book_slot_url))
         (emit (EvAllowed "SchedulingAgent" "book_appointment")
            (emit EvExit (emit (EvCap (CapHttpGet get_slots_url))
               (emit (EvAllowed "SchedulingAgent" "get_service_slots") denied_world))))))).
  { rewrite scheduling_node_continues.
    apply (scheduling_authorized_calls_run _ _ (VStr vehicle_id) slots slot status); try done.
    unfold recorded. by rewrite lookup_insert_ne. }
  assert (Hv' : <["booking_status" := VStr status]>
                  (<["appointment_slot" := VStr slot]> recorded) !! "vehicle_id"
                = Some (VStr vehicle_id)).
  { unfold recorded. rewrite !lookup_insert_ne by done. exact Hv. }
  pose proof (feedback_and_insight_node_run _
    (emit EvExit (emit (EvCap (CapHttpPost book_slot_url))
       (emit (EvAllowed "SchedulingAgent" "book_appointment")
          (emit EvExit (emit (EvCap (CapHttpGet get_slots_url))
             (emit (EvAllowed "SchedulingAgent" "get_service_slots") denied_world))))))
    vehicle_id r rs c cs Hv' Hrca Hrows) as Hfeedback.
  eexists _, _, _, _. split; [exact Hnode|]. split; [reflexivity|].
  split; [simpl; by rewrite <- !app_assoc|].
  split; [|split].
  - intros [|[|fuel]] Hfuel; [lia..|].
    rewrite (execute_from_edge _ _ _ _ _ _ _ _ _
               workflow_node_scheduling Hnode workflow_edge_scheduling).
    replace (String.eqb "feedback_and_insight" END) with false by reflexivity.
    rewrite (execute_from_edge _ _ _ _ _ _ _ _ _
               workflow_node_feedback Hfeedback workflow_edge_feedback).
    reflexivity.
  - rewrite lookup_insert_ne by done. rewrite lookup_insert_ne by done.
    rewrite lookup_insert_ne by done. apply lookup_insert_eq.
  - simpl. by rewrite <- !app_assoc.
Qed.

Lemma scheduling_denial_is_recorded_and_run_continues_witness :
  engaged_state !! "vehicle_id" = Some (VStr "veh_007")
  ∧ scheduler_get_slots demo_world = Some mock_slots
  ∧ mock_slots !! 1%nat = Some "11:00 AM"%string
  ∧ scheduler_book_slot demo_world (VStr "veh_007") "11:00 AM" !! "status"
      = Some "confirmed"%string
  ∧ ∃ (final : WorkflowState) (w2 : World),
      execute_from 2 workflow "scheduling" engaged_state demo_world
        = Some {| visited := ["scheduling"; "feedback_and_insight"]%string;
                  ending := Completed final; world_after := w2 |}
      ∧ final !! "error_message" = Some (VStr payment_history_denial).
Proof.
  assert (Hv : engaged_state !! "vehicle_id" = Some (VStr "veh_007")) by reflexivity.
  assert (Hslots : scheduler_get_slots demo_world = Some mock_slots) by reflexivity.
  assert (Hslot : mock_slots !! 1%nat = Some "11:00 AM"%string) by reflexivity.
  assert (Hstatus : scheduler_book_slot demo_world (VStr "veh_007") "11:00 AM" !! "status"
                    = Some "confirmed"%string) by reflexivity.
  assert (Hrca : rca_records demo_world = rca) by reflexivity.
  assert (Hrows : rows_where c_vehicle_id (VStr "veh_007") (customer_profiles demo_world)
      = [ {| c_vehicle_id := "veh_007"; customer_id := "cust_107"; customer_name := "Neha";
             driving_style := "Highway"; avg_daily_km := 120; health_score := 800 |} ]).
  { vm_compute. reflexivity. }
  do 4 (split; [assumption|]).
  destruct (proj2 (proj2 (proj2
              (scheduling_denial_is_recorded_and_run_continues engaged_state demo_world)))
              "veh_007"%string mock_slots "11:00 AM"%string "confirmed"%string
              _ _ _ _ Hv Hslots Hslot Hstatus Hrca Hrows)
    as (scheduled & final & w1 & w2 & _ & _ & _ & Hrun & Herr & _).
  exists final, w2. split; [apply Hrun; lia | exact Herr].
Defined.

Lemma ueba_security_wrapper_runs_iff_permitted_witness :
  ("get_payment_history"%string ∉ default [] (ALLOWED_TOOLS !! "SchedulingAgent"))
  ∧ ueba_security_wrapper "SchedulingAgent" "get_payment_history" payment_history_probe demo_world
      = (Raise (PermissionError payment_history_denial),
         emit (EvDenied "SchedulingAgent" "get_payment_history") demo_world)
  ∧ ("read_csv"%string ∈ default [] (ALLOWED_TOOLS !! "DataAnalysisAgent"))
  ∧ ueba_security_wrapper "DataAnalysisAgent" "read_csv" analyze_telemetry_data demo_world
      = (Return flagged_reading,
         emit EvExit (emit (EvCap (CapReadCsv telematics_csv))
                        (emit (EvAllowed "DataAnalysisAgent" "read_csv") demo_world))).
Proof.
  assert (Hout : "get_payment_history"%string ∉ default [] (ALLOWED_TOOLS !! "SchedulingAgent"))
    by (apply py_in_false; reflexivity).
  assert (Hin : "read_csv"%string ∈ default [] (ALLOWED_TOOLS !! "DataAnalysisAgent"))
    by (apply py_in_elem_of; reflexivity).
  split; [exact Hout|]. split.
  - exact (proj1 (proj1 (proj2 (ueba_security_wrapper_runs_iff_permitted
             "SchedulingAgent" "get_payment_history" payment_history_probe demo_world))) Hout).
  - split; [exact Hin|].
    exact (proj1 (proj1 (ueba_security_wrapper_runs_iff_permitted
             "DataAnalysisAgent" "read_csv" analyze_telemetry_data demo_world)) Hin).
Defined.

Lemma permits_is_configured_membership_witness :
  ALLOWED_TOOLS !! "BillingAgent" = None
  ∧ permits "BillingAgent" "read_csv" = false
  ∧ permits "FeedbackAgent" "write_csv" = true.
Proof.
  assert (Habsent : ALLOWED_TOOLS !! "BillingAgent" = None) by reflexivity.
  split; [exact Habsent|]. split.
  - exact (proj1 (proj2 (proj2 (permits_is_configured_membership "BillingAgent" "read_csv")))
             Habsent).
  - apply (proj2 (proj1 (proj2 (permits_is_configured_membership "FeedbackAgent" "write_csv")))).
    repeat first [left | right]. 
Defined.

(** ** Which capabilities run under the wrapper *)

(** C3 does not hold of the code.  Whenever the telemetry holds a
    low-pressure reading, the intake node reads data/customer_profiles.csv
    after its wrapped call has finished, with no wrapper call in progress:
    whatever the state and the files, the events that the node adds are
    the wrapped telemetry read followed by a bare CSV read. *)
Theorem data_analysis_node_reads_profiles_outside_wrapper
    (state : WorkflowState) (w : World) (anomaly : TelemetryRow) (rest : list TelemetryRow) :
  low_pressure (vehicle_telematics w) = anomaly :: rest →
  rev (trace (data_analysis_node state w).2) = rev (trace w) ++ data_analysis_events
  ∧ outside_wrapper 0 data_analysis_events = [CapReadCsv customers_csv]
  ∧ (trace w = [] →
       capabilities_outside_wrapper (data_analysis_node state w).2
         = [CapReadCsv customers_csv]).
Proof.
  intros Hlow.
  assert (Hev : rev (trace (data_analysis_node state w).2)
                = rev (trace w) ++ data_analysis_events).
  { unfold data_analysis_node. unfold mbind at 1, M_bind.
    rewrite wrapper_allowed by reflexivity.
    unfold scoped, analyze_telemetry_data, mbind, M_bind, read_csv. simpl.
    rewrite Hlow. simpl.
    destruct (rows_where c_vehicle_id _ (customer_profiles w)) as [|c cs]; simpl;
      by rewrite <- !app_assoc. }
  split; [exact Hev|]. split; [reflexivity|].
  intros Htrace. unfold capabilities_outside_wrapper. rewrite Hev, Htrace. reflexivity.
Qed.

Lemma data_analysis_node_reads_profiles_outside_wrapper_witness :
  low_pressure (vehicle_telematics demo_world) = [flagged_reading]
  ∧ data_analysis_node ∅ demo_world = (Return analysed_state, (data_analysis_node ∅ demo_world).2)
  ∧ capabilities_outside_wrapper (data_analysis_node ∅ demo_world).2
      = [CapReadCsv customers_csv].
Proof.
  assert (Hlow : low_pressure (vehicle_telematics demo_world) = [flagged_reading])
    by (vm_compute; reflexivity).
  split; [exact Hlow|]. split; [vm_compute; reflexivity|].
  apply (proj2 (proj2 (data_analysis_node_reads_profiles_outside_wrapper
                         ∅ demo_world _ _ Hlow))).
  reflexivity.
Defined.

(** In the run on the repository's data that bare read is the only
    capability exercised outside the wrapper: the diagnosis, engagement,
    scheduling and feedback nodes keep theirs inside it. *)
Lemma demo_run_outside_wrapper :
  (visited <$> execute 6 workflow ∅ demo_world)
    = Some ["data_analysis"; "diagnosis"; "customer_engagement"; "scheduling";
            "feedback_and_insight"]%string
  ∧ (capabilities_outside_wrapper ∘ world_after <$> execute 6 workflow ∅ demo_world)
      = Some [CapReadCsv customers_csv].
Proof. split; vm_compute; reflexivity. Qed.

(** * Further properties of the workflow *)

(** ** The intake *)

Lemma filter_head_split {A} (P : A → Prop) `{∀ x, Decision (P x)} (l : list A)
    (x : A) (xs : list A) :
  filter P l = x :: xs →
  ∃ pre post, l = pre ++ x :: post ∧ Forall (fun y => ¬ P y) pre ∧ P x ∧ xs = filter P post.
Proof.
  induction l as [|y l IH]; [discriminate|].
  rewrite filter_cons. destruct (decide (P y)) as [Hy|Hy].
  - intros [= -> <-]. by exists [], l.
  - intros Hf. destruct (IH Hf) as (pre & post & -> & Hpre & Hx & Hxs).
    exists (y :: pre), post. repeat split; [by constructor | done..].
Qed.

Lemma filter_skip_prefix {A} (P : A → Prop) `{∀ x, Decision (P x)} (pre l : list A) :
  Forall (fun y => ¬ P y) pre → filter P (pre ++ l) = filter P l.
Proof.
  induction 1 as [|y pre Hy _ IH]; [done|].
  simpl. by rewrite filter_cons_False.
Qed.

Lemma analyze_telemetry_data_run (w : World) :
  analyze_telemetry_data w =
    (match low_pressure (vehicle_telematics w) with
     | [] => Raise IndexError
     | anomaly :: _ => Return anomaly
     end, emit (EvCap (CapReadCsv telematics_csv)) w).
Proof.
  unfold analyze_telemetry_data, mbind, M_bind, read_csv, iloc0.
  by destruct (low_pressure (vehicle_telematics w)).
Qed.

(** X1. The telemetry analysis returns a reading exactly when that
    reading is below 450 psi and every reading before it in the file is at
    450 psi or more, and raises IndexError exactly when no reading is
    below 450 psi; either way it reads the telemetry file once and does
    nothing else. *)
Theorem analyze_telemetry_data_first_match (w : World) (anomaly : TelemetryRow) :
  ((analyze_telemetry_data w).1 = Return anomaly ↔
     ∃ before after,
       vehicle_telematics w = before ++ anomaly :: after
       ∧ Forall (fun r => 45000 ≤ brake_fluid_pressure_psi r) before
       ∧ brake_fluid_pressure_psi anomaly < 45000)
  ∧ ((analyze_telemetry_data w).1 = Raise IndexError ↔
       Forall (fun r => 45000 ≤ brake_fluid_pressure_psi r) (vehicle_telematics w))
  ∧ (analyze_telemetry_data w).2 = emit (EvCap (CapReadCsv telematics_csv)) w.
Proof.
  rewrite analyze_telemetry_data_run. simpl. unfold low_pressure.
  split; [|split; [|done]].
  - split.
    + destruct (filter _ (vehicle_telematics w)) as [|x xs] eqn:Hf; [discriminate|].
      intros [= ->]. apply filter_head_split in Hf as (pre & post & Hl & Hpre & Hx & _).
      exists pre, post. repeat split; [done| |done].
      eapply Forall_impl; [exact Hpre|]. simpl. lia.
    + intros (pre & post & -> & Hpre & Hx).
      rewrite filter_skip_prefix.
      * by rewrite filter_cons_True.
      * eapply Forall_impl; [exact Hpre|]. simpl. lia.
  - destruct (filter _ (vehicle_telematics w)) as [|x xs] eqn:Hf.
    + split; [intros _|done]. apply filter_none in Hf.
      eapply Forall_impl; [exact Hf|]. simpl. lia.
    + split; [discriminate|]. intros Hall.
      assert (Hnone : filter (fun r => brake_fluid_pressure_psi r < 45000)
                        (vehicle_telematics w) = []).
      { apply filter_none. eapply Forall_impl; [exact Hall|]. simpl. lia. }
      congruence.
Qed.

Lemma data_analysis_node_run (state : WorkflowState) (w : World)
    (r : TelemetryRow) (rest : list TelemetryRow) :
  low_pressure (vehicle_telematics w) = r :: rest →
  data_analysis_node state w =
    (match rows_where c_vehicle_id (VStr (t_vehicle_id r)) (customer_profiles w) with
     | [] => Raise IndexError
     | p :: _ => Return (analysed state r p)
     end,
     emit (EvCap (CapReadCsv customers_csv))
       (emit EvExit (emit (EvCap (CapReadCsv telematics_csv))
          (emit (EvAllowed "DataAnalysisAgent" "read_csv") w)))).
Proof.
  intros Hlow. unfold data_analysis_node. unfold mbind at 1, M_bind.
  rewrite wrapper_allowed by reflexivity. unfold scoped.
  rewrite analyze_telemetry_data_run. simpl. rewrite Hlow.
  unfold mbind, M_bind, read_csv. simpl.
  by destruct (rows_where c_vehicle_id _ (customer_profiles w)).
Qed.

(** X2. On tables as pandas reads them back, when the telemetry holds a
    low-pressure reading and the profiles hold a row for its vehicle, the
    intake node returns the state with "vehicle_id" and "anomaly_data" taken
    from the first such reading, "customer_id" and "customer_name" taken
    from the first profile row of that vehicle, and a text under
    "anomaly_details"; every other field of the state is left as it was and
    no file is changed. *)
Theorem data_analysis_node_fills_identity (state : WorkflowState) (w : World)
    (r : TelemetryRow) (rest : list TelemetryRow) (p : CustomerRow) (ps : list CustomerRow) :
  as_read w →
  low_pressure (vehicle_telematics w) = r :: rest →
  rows_where c_vehicle_id (VStr (t_vehicle_id r)) (customer_profiles w) = p :: ps →
  ∃ state' w',
    data_analysis_node state w = (Return state', w')
    ∧ state' !! "vehicle_id" = Some (VStr (t_vehicle_id r))
    ∧ state' !! "customer_id" = Some (VStr (customer_id p))
    ∧ state' !! "customer_name" = Some (VStr (customer_name p))
    ∧ state' !! "anomaly_data" = Some (VDict r)
    ∧ (∃ text : string, state' !! "anomaly_details" = Some (VStr text))
    ∧ c_vehicle_id p = t_vehicle_id r
    ∧ (∀ key : string,
         key ∉ ["vehicle_id"; "customer_id"; "customer_name"; "anomaly_data";
                "anomaly_details"]%string → state' !! key = state !! key)
    ∧ customer_profiles w' = customer_profiles w
    ∧ vehicle_telematics w' = vehicle_telematics w.
Proof.
  intros _ Hlow Hrows. eexists _, _.
  split; [rewrite (data_analysis_node_run _ _ _ _ Hlow), Hrows; reflexivity|].
  unfold analysed.
  repeat split; try (by simplify_map_eq).
  - eexists. by simplify_map_eq.
  - assert (Hp : p ∈ rows_where c_vehicle_id (VStr (t_vehicle_id r)) (customer_profiles w))
      by (rewrite Hrows; left).
    unfold rows_where in Hp. apply list_elem_of_filter in Hp as [Hp _].
    simpl in Hp. by apply String.eqb_eq in Hp.
  - intros key Hkey. rewrite !lookup_insert_ne; [done|..];
      intros <-; apply Hkey; repeat first [left | right].
Qed.

Lemma data_analysis_node_fills_identity_witness :
  as_read demo_world
  ∧ low_pressure (vehicle_telematics demo_world) = [flagged_reading]
  ∧ rows_where c_vehicle_id (VStr (t_vehicle_id flagged_reading)) (customer_profiles demo_world)
      = [neha]
  ∧ ∃ state' w',
      data_analysis_node ∅ demo_world = (Return state', w')
      ∧ state' !! "customer_id" = Some (VStr "cust_107").
Proof.
  assert (Hlow : low_pressure (vehicle_telematics demo_world) = [flagged_reading])
    by (vm_compute; reflexivity).
  assert (Hrows : rows_where c_vehicle_id (VStr (t_vehicle_id flagged_reading))
                    (customer_profiles demo_world) = [neha])
    by (vm_compute; reflexivity).
  split; [exact demo_world_as_read|]. split; [exact Hlow|]. split; [exact Hrows|].
  destruct (data_analysis_node_fills_identity ∅ demo_world _ _ _ _
              demo_world_as_read Hlow Hrows)
    as (state' & w' & Hrun & _ & Hid & _).
  exists state', w'. split; [exact Hrun | exact Hid].
Defined.

(** ** The diagnosis node *)

(** X4. A diagnosis that succeeds writes "diagnosis" and an integer
    "drps_score" and nothing else: every other field of the state is as
    before, no file is changed, and what happened is one wrapped call in
    which the two tables were read and the model was asked once. *)
Theorem diagnosis_node_frame (state state' : WorkflowState) (w w' : World) :
  diagnosis_node state w = (Return state', w') →
  (∃ (cat : string) (drps : Z),
     state' !! "diagnosis" = Some (VStr cat) ∧ state' !! "drps_score" = Some (VInt drps))
  ∧ (∀ key : string, key ∉ ["diagnosis"; "drps_score"]%string → state' !! key = state !! key)
  ∧ safety_impact_scores w' = safety_impact_scores w
  ∧ customer_profiles w' = customer_profiles w
  ∧ rev (trace w') = rev (trace w) ++ diagnosis_events.
Proof.
  intros Hnode.
  destruct (diagnosis_node_inv _ _ _ _ Hnode)
    as (v & a & cat & d & w1 & Hv & Ha & Hrun & -> & ->).
  destruct (get_diagnosis_and_drps_inv _ _ _ _ _ _ Hrun) as (row & s & p & _ & _ & _ & _ & _ & ->).
  split; [exists cat, d; by simplify_map_eq|].
  split; [|split; [done|split; [done|simpl; by rewrite <- !app_assoc]]].
  intros key Hkey. rewrite !lookup_insert_ne; [done|..];
    intros <-; apply Hkey; repeat first [left | right].
Qed.

Lemma diagnosis_node_frame_witness :
  diagnosis_node analysed_state demo_world
    = (Return (<["drps_score" := VInt 95]> (<["diagnosis" := VStr "Brakes"]> analysed_state)),
       (diagnosis_node analysed_state demo_world).2)
  ∧ <["drps_score" := VInt 95]> (<["diagnosis" := VStr "Brakes"]> analysed_state)
      !! "customer_name" = analysed_state !! "customer_name".
Proof.
  assert (Hnode : diagnosis_node analysed_state demo_world
    = (Return (<["drps_score" := VInt 95]> (<["diagnosis" := VStr "Brakes"]> analysed_state)),
       (diagnosis_node analysed_state demo_world).2)) by (vm_compute; reflexivity).
  split; [exact Hnode|].
  apply (proj1 (proj2 (diagnosis_node_frame _ _ _ _ Hnode))).
  intros Hin. repeat (apply elem_of_cons in Hin as [Hin|Hin]; [discriminate|]). inversion Hin.
Defined.

(** X5. When the table lists neither the model's answer nor "Brakes",
    the substituted default is itself unknown: the diagnosis step raises
    KeyError for 'Brakes' after the model has been asked.  When the vehicle
    has no profile row it raises KeyError for the vehicle. *)
Theorem get_diagnosis_and_drps_key_errors (vehicle_id : string) (row : TelemetryRow) (w : World) :
  ("Brakes"%string ∉ map component (safety_impact_scores w) →
   model_answer w (VStr vehicle_id) row ∉ map component (safety_impact_scores w) →
   get_diagnosis_and_drps (VStr vehicle_id) (VDict row) w
     = (Raise (KeyError (VStr "Brakes")), after_diagnosis_effects w))
  ∧ (∀ s ss,
       rows_where component
         (VStr (checked_component (safety_impact_scores w)
                  (model_answer w (VStr vehicle_id) row)))
         (safety_impact_scores w) = s :: ss →
       vehicle_id ∉ map c_vehicle_id (customer_profiles w) →
       get_diagnosis_and_drps (VStr vehicle_id) (VDict row) w
         = (Raise (KeyError (VStr vehicle_id)), after_diagnosis_effects w)).
Proof.
  assert (Hnone : ∀ {A} (key : A → string) (label : string) (rows : list A),
            label ∉ map key rows → rows_where key (VStr label) rows = []).
  { intros A key label rows Hnin. unfold rows_where. apply filter_none.
    apply Forall_forall. intros x Hx Heq. simpl in Heq. apply String.eqb_eq in Heq.
    apply Hnin. rewrite <- Heq. by apply list_elem_of_fmap_2. }
  split.
  - intros Hbrakes Hanswer.
    unfold get_diagnosis_and_drps, mbind, M_bind, read_csv, llm_invoke, as_dict, loc. simpl.
    fold (model_answer w (VStr vehicle_id) row).
    assert (Hcat : checked_component (safety_impact_scores w)
                     (model_answer w (VStr vehicle_id) row) = "Brakes"%string).
    { unfold checked_component. apply py_in_false in Hanswer. by rewrite Hanswer. }
    rewrite Hcat, (Hnone _ component) by done. reflexivity.
  - intros s ss Hs Hv.
    unfold get_diagnosis_and_drps, mbind, M_bind, read_csv, llm_invoke, as_dict, loc. simpl.
    fold (model_answer w (VStr vehicle_id) row). rewrite Hs. simpl.
    rewrite (Hnone _ c_vehicle_id) by done. reflexivity.
Qed.

Lemma get_diagnosis_and_drps_key_errors_witness :
  ("Brakes"%string ∉ map component (safety_impact_scores engine_only_world))
  ∧ (model_answer engine_only_world (VStr "veh_007") flagged_reading
       ∉ map component (safety_impact_scores engine_only_world))
  ∧ get_diagnosis_and_drps (VStr "veh_007") (VDict flagged_reading) engine_only_world
      = (Raise (KeyError (VStr "Brakes")), after_diagnosis_effects engine_only_world).
Proof.
  assert (H1 : "Brakes"%string ∉ map component (safety_impact_scores engine_only_world))
    by (apply py_in_false; reflexivity).
  assert (H2 : model_answer engine_only_world (VStr "veh_007") flagged_reading
                 ∉ map component (safety_impact_scores engine_only_world))
    by (apply py_in_false; vm_compute; reflexivity).
  split; [exact H1|]. split; [exact H2|].
  exact (proj1 (get_diagnosis_and_drps_key_errors "veh_007" flagged_reading engine_only_world)
           H1 H2).
Defined.

(** ** Fields a node needs *)

Lemma getitem_present (state : WorkflowState) (key : string) (v : value) (w : World) :
  state !! key = Some v → getitem state key w = (Return v, w).
Proof. intros H. unfold getitem. by rewrite H. Qed.

Lemma getitem_missing (state : WorkflowState) (key : string) (w : World) :
  state !! key = None → getitem state key w = (Raise (KeyError (VStr key)), w).
Proof. intros H. unfold getitem. by rewrite H. Qed.

(** X6. A node that is run before the fields it reads are there fails
    with KeyError for the first missing field, in the order the node reads
    them, before the wrapper is called: no audit line is written, no file is
    read or written, neither the backend nor the model is called (the
    banner that the node prints first is console output outside the
    model).  The diagnosis node reads "vehicle_id" and "anomaly_data", the
    engagement node "customer_name", "drps_score", "anomaly_data" and
    "diagnosis", the feedback node "vehicle_id". *)
Theorem nodes_raise_KeyError_for_first_missing_field
    (state : WorkflowState) (w : World) (key : string) :
  (first_missing ["vehicle_id"; "anomaly_data"] state = Some key →
     diagnosis_node state w = (Raise (KeyError (VStr key)), w))
  ∧ (first_missing ["customer_name"; "drps_score"; "anomaly_data"; "diagnosis"] state = Some key →
       customer_engagement_node state w = (Raise (KeyError (VStr key)), w))
  ∧ (first_missing ["vehicle_id"] state = Some key →
       feedback_and_insight_node state w = (Raise (KeyError (VStr key)), w)).
Proof.
  unfold diagnosis_node, customer_engagement_node, feedback_and_insight_node. simpl.
  split; [|split].
  - destruct (state !! "vehicle_id") as [v|] eqn:H1.
    + destruct (state !! "anomaly_data") as [a|] eqn:H2; [discriminate|]. intros [= <-].
      unfold mbind at 1, M_bind. rewrite (getitem_present _ _ _ _ H1).
      unfold mbind at 1, M_bind. by rewrite (getitem_missing _ _ _ H2).
    + intros [= <-]. unfold mbind at 1, M_bind. by rewrite (getitem_missing _ _ _ H1).
  - destruct (state !! "customer_name") as [v1|] eqn:H1;
      [|intros [= <-]; unfold mbind at 1, M_bind; by rewrite (getitem_missing _ _ _ H1)].
    unfold mbind at 1, M_bind. rewrite (getitem_present _ _ _ _ H1).
    destruct (state !! "drps_score") as [v2|] eqn:H2;
      [|intros [= <-]; unfold mbind at 1, M_bind; by rewrite (getitem_missing _ _ _ H2)].
    unfold mbind at 1, M_bind. rewrite (getitem_present _ _ _ _ H2).
    destruct (state !! "anomaly_data") as [v3|] eqn:H3;
      [|intros [= <-]; unfold mbind at 1, M_bind; by rewrite (getitem_missing _ _ _ H3)].
    unfold mbind at 1, M_bind. rewrite (getitem_present _ _ _ _ H3).
    destruct (state !! "diagnosis") as [v4|] eqn:H4; [discriminate|].
    intros [= <-]. unfold mbind at 1, M_bind. by rewrite (getitem_missing _ _ _ H4).
  - destruct (state !! "vehicle_id") as [v|] eqn:H1; [discriminate|].
    intros [= <-]. unfold mbind at 1, M_bind. by rewrite (getitem_missing _ _ _ H1).
Qed.

Lemma nodes_raise_KeyError_for_first_missing_field_witness :
  first_missing ["customer_name"; "drps_score"; "anomaly_data"; "diagnosis"] analysed_state
    = Some "drps_score"%string
  ∧ customer_engagement_node analysed_state demo_world
      = (Raise (KeyError (VStr "drps_score")), demo_world).
Proof.
  assert (H : first_missing ["customer_name"; "drps_score"; "anomaly_data"; "diagnosis"]
                analysed_state = Some "drps_score"%string) by reflexivity.
  split; [exact H|].
  exact (proj1 (proj2 (nodes_raise_KeyError_for_first_missing_field
                         analysed_state demo_world "drps_score")) H).
Defined.

(** ** The engagement node *)

Lemma generate_xai_customer_message_run (customer_name diagnosis : value) (n : Z)
    (row : TelemetryRow) (w : World) :
  generate_xai_customer_message customer_name (VInt n) (VDict row) diagnosis w
    = (Return (llm_content w (OutreachPrompt customer_name diagnosis
                                (brake_fluid_pressure_psi row) (brake_pad_thickness_mm row))),
       emit (EvCap CapLlmInvoke) w).
Proof. reflexivity. Qed.

(** X7. The outreach message does not depend on the priority score: the
    urgency sentence chosen from the score never reaches the prompt, so two
    integer scores give the same call of the model and the same message.  A
    score that is not a number, or an anomaly that is not a dict, raises
    TypeError and the model is not asked. *)
Theorem generate_xai_customer_message_ignores_score
    (customer_name diagnosis anomaly_data : value) (w : World) :
  (∀ n1 n2 : Z,
     generate_xai_customer_message customer_name (VInt n1) anomaly_data diagnosis w
       = generate_xai_customer_message customer_name (VInt n2) anomaly_data diagnosis w)
  ∧ (∀ drps_score : value, (∀ n, drps_score ≠ VInt n) →
       generate_xai_customer_message customer_name drps_score anomaly_data diagnosis w
         = (Raise TypeError, w))
  ∧ (∀ drps_score : value, (∀ row, anomaly_data ≠ VDict row) →
       generate_xai_customer_message customer_name drps_score anomaly_data diagnosis w
         = (Raise TypeError, w)).
Proof.
  split; [|split].
  - intros n1 n2. unfold generate_xai_customer_message, mbind, M_bind. simpl.
    by destruct anomaly_data.
  - intros [s|n|r] Hn; try reflexivity. by destruct (Hn n).
  - intros score Ha. unfold generate_xai_customer_message, mbind, M_bind.
    destruct score as [s|n|r]; simpl; try reflexivity.
    destruct anomaly_data as [s|m|row]; simpl; try reflexivity. by destruct (Ha row).
Qed.

Lemma customer_engagement_node_inv (state state' : WorkflowState) (w w' : World) :
  customer_engagement_node state w = (Return state', w') →
  ∃ (name diagnosis : value) (n : Z) (row : TelemetryRow),
    state !! "customer_name" = Some name
    ∧ state !! "drps_score" = Some (VInt n)
    ∧ state !! "anomaly_data" = Some (VDict row)
    ∧ state !! "diagnosis" = Some diagnosis
    ∧ state' = engaged state
                 (llm_content w (OutreachPrompt name diagnosis
                                   (brake_fluid_pressure_psi row) (brake_pad_thickness_mm row)))
    ∧ w' = emit EvExit (emit (EvCap CapLlmInvoke)
                          (emit (EvAllowed "CustomerEngagementAgent" "llm_invoke") w)).
Proof.
  unfold customer_engagement_node, getitem. unfold mbind at 1 2 3 4 5, M_bind.
  destruct (state !! "customer_name") as [name|]; simpl; [|discriminate].
  destruct (state !! "drps_score") as [score|]; simpl; [|discriminate].
  destruct (state !! "anomaly_data") as [a|]; simpl; [|discriminate].
  destruct (state !! "diagnosis") as [d|]; simpl; [|discriminate].
  rewrite wrapper_allowed by reflexivity. unfold scoped.
  destruct score as [?|n|?]; try discriminate.
  destruct a as [?|?|row]; try discriminate.
  rewrite generate_xai_customer_message_run. simpl.
  intros [= <- <-]. by exists name, d, n, row.
Qed.

Lemma customer_engagement_node_run (state : WorkflowState) (w : World)
    (name diagnosis : value) (n : Z) (row : TelemetryRow) :
  state !! "customer_name" = Some name →
  state !! "drps_score" = Some (VInt n) →
  state !! "anomaly_data" = Some (VDict row) →
  state !! "diagnosis" = Some diagnosis →
  customer_engagement_node state w
    = (Return (engaged state
                 (llm_content w (OutreachPrompt name diagnosis
                                   (brake_fluid_pressure_psi row) (brake_pad_thickness_mm row)))),
       emit EvExit (emit (EvCap CapLlmInvoke)
                      (emit (EvAllowed "CustomerEngagementAgent" "llm_invoke") w))).
Proof.
  intros H1 H2 H3 H4.
  unfold customer_engagement_node, getitem. unfold mbind at 1 2 3 4 5, M_bind.
  rewrite H1, H2, H3, H4. simpl.
  rewrite wrapper_allowed by reflexivity. unfold scoped.
  by rewrite generate_xai_customer_message_run.
Qed.

(** X8. The engagement node always records the answer 'yes', and the
    router that runs next replaces it: after an engagement that succeeded,
    the router returns for the score n of the state, and the answer left in
    the dict is 'yes' exactly when n is above 80.  The message and every
    other field written so far stay. *)
Theorem engagement_answer_is_decided_by_router (state state' : WorkflowState) (w w' : World) :
  customer_engagement_node state w = (Return state', w') →
  state' !! "customer_response" = Some (VStr "yes")
  ∧ ∃ (n : Z) (label : string) (state'' : WorkflowState),
      state !! "drps_score" = Some (VInt n)
      ∧ should_schedule state' w' = (Return (label, state''), w')
      ∧ (state'' !! "customer_response" = Some (VStr "yes") ↔ 80 < n)
      ∧ (state'' !! "customer_response" = Some (VStr "no") ↔ n ≤ 80)
      ∧ (label = "continue_to_scheduling"%string ↔ 80 < n)
      ∧ state'' !! "xai_explanation" = state' !! "xai_explanation".
Proof.
  intros Hnode.
  destruct (customer_engagement_node_inv _ _ _ _ Hnode)
    as (name & d & n & row & _ & Hscore & _ & _ & -> & _).
  split; [by unfold engaged; simplify_map_eq|].
  assert (Hscore' : engaged state
            (llm_content w (OutreachPrompt name d (brake_fluid_pressure_psi row)
                              (brake_pad_thickness_mm row))) !! "drps_score" = Some (VInt n)).
  { unfold engaged. by rewrite !lookup_insert_ne. }
  exists n, (if 80 <? n then "continue_to_scheduling"%string else "handle_decline"%string),
    (<["customer_response" := VStr (if 80 <? n then "yes" else "no")]>
       (engaged state
          (llm_content w (OutreachPrompt name d (brake_fluid_pressure_psi row)
                            (brake_pad_thickness_mm row))))).
  split; [done|].
  split; [rewrite (should_schedule_run _ _ _ Hscore'); by destruct (80 <? n)|].
  rewrite lookup_insert_eq, lookup_insert_ne by done.
  destruct (Z.ltb_spec 80 n); repeat split; intros; try done; try lia.
Qed.

Lemma engagement_answer_is_decided_by_router_witness :
  customer_engagement_node
      (<["drps_score" := VInt 95]> (<["diagnosis" := VStr "Brakes"]> analysed_state)) demo_world
    = (Return engaged_state,
       (customer_engagement_node
          (<["drps_score" := VInt 95]> (<["diagnosis" := VStr "Brakes"]> analysed_state))
          demo_world).2)
  ∧ engaged_state !! "customer_response" = Some (VStr "yes").
Proof.
  assert (Hnode : customer_engagement_node
      (<["drps_score" := VInt 95]> (<["diagnosis" := VStr "Brakes"]> analysed_state)) demo_world
    = (Return engaged_state,
       (customer_engagement_node
          (<["drps_score" := VInt 95]> (<["diagnosis" := VStr "Brakes"]> analysed_state))
          demo_world).2)) by (vm_compute; reflexivity).
  split; [exact Hnode|].
  exact (proj1 (engagement_answer_is_decided_by_router _ _ _ _ Hnode)).
Defined.

(** ** The scheduling node *)

Lemma get_service_slots_call (w : World) :
  ueba_security_wrapper "SchedulingAgent" "get_service_slots" get_service_slots w
    = (match scheduler_get_slots w with
       | Some slots => Return slots
       | None => Raise (KeyError (VStr "slots"))
       end,
       emit EvExit (emit (EvCap (CapHttpGet get_slots_url))
                      (emit (EvAllowed "SchedulingAgent" "get_service_slots") w))).
Proof.
  rewrite wrapper_allowed by reflexivity. unfold scoped, get_service_slots. simpl.
  by destruct (scheduler_get_slots w).
Qed.

(** X9. The scheduling node books nothing unless it has a slot and a
    vehicle.  When the backend's reply has no "slots" entry it raises
    KeyError for 'slots'; when the reply lists fewer than two slots it
    raises IndexError; when the state has no "vehicle_id" it raises KeyError
    for 'vehicle_id'.  In each case the denied demonstration call and the
    fetch of the slots are all that happened: no booking request was sent.
    When the booking reply has no "status" entry the node raises KeyError
    for 'status' after the request was sent. *)
Theorem scheduling_node_failures (state : WorkflowState) (w : World) :
  (scheduler_get_slots w = None →
     (scheduling_node state w).1 = Raise (KeyError (VStr "slots"))
     ∧ rev (trace (scheduling_node state w).2) = rev (trace w) ++ slot_fetch_events)
  ∧ (∀ slots, scheduler_get_slots w = Some slots → (length slots < 2)%nat →
       (scheduling_node state w).1 = Raise IndexError
       ∧ rev (trace (scheduling_node state w).2) = rev (trace w) ++ slot_fetch_events)
  ∧ (∀ slots slot, scheduler_get_slots w = Some slots → slots !! 1%nat = Some slot →
       state !! "vehicle_id" = None →
       (scheduling_node state w).1 = Raise (KeyError (VStr "vehicle_id"))
       ∧ rev (trace (scheduling_node state w).2) = rev (trace w) ++ slot_fetch_events)
  ∧ (∀ slots slot vehicle_id, scheduler_get_slots w = Some slots → slots !! 1%nat = Some slot →
       state !! "vehicle_id" = Some vehicle_id →
       scheduler_book_slot w vehicle_id slot !! "status" = None →
       (scheduling_node state w).1 = Raise (KeyError (VStr "status"))
       ∧ rev (trace (scheduling_node state w).2) = rev (trace w) ++ scheduling_events).
Proof.
  pose (w1 := emit EvExit (emit (EvCap (CapHttpGet get_slots_url))
                (emit (EvAllowed "SchedulingAgent" "get_service_slots")
                   (emit (EvDenied "SchedulingAgent" "get_payment_history") w)))).
  split; [|split; [|split]].
  - intros Hslots.
    assert (scheduling_node state w = (Raise (KeyError (VStr "slots")), w1)) as ->.
    { rewrite scheduling_node_continues. unfold scheduling_authorized_calls.
      unfold mbind at 1, M_bind. rewrite get_service_slots_call. simpl. by rewrite Hslots. }
    split; [done | simpl; by rewrite <- !app_assoc].
  - intros slots Hslots Hlen.
    assert (scheduling_node state w = (Raise IndexError, w1)) as ->.
    { rewrite scheduling_node_continues. unfold scheduling_authorized_calls.
      unfold mbind at 1, M_bind. rewrite get_service_slots_call. simpl. rewrite Hslots.
      unfold mbind at 1, M_bind. by rewrite (lookup_ge_None_2 slots 1) by lia. }
    split; [done | simpl; by rewrite <- !app_assoc].
  - intros slots slot Hslots Hslot Hv.
    assert (scheduling_node state w = (Raise (KeyError (VStr "vehicle_id")), w1)) as ->.
    { rewrite scheduling_node_continues. unfold scheduling_authorized_calls.
      unfold mbind at 1, M_bind. rewrite get_service_slots_call. simpl. rewrite Hslots.
      unfold mbind at 1, M_bind. rewrite Hslot. simpl.
      unfold mbind at 1, M_bind. rewrite getitem_missing; [done|].
      by rewrite !lookup_insert_ne. }
    split; [done | simpl; by rewrite <- !app_assoc].
  - intros slots slot v Hslots Hslot Hv Hstatus.
    assert (scheduling_node state w
            = (Raise (KeyError (VStr "status")),
               emit EvExit (emit (EvCap (CapHttpPost book_slot_url))
                 (emit (EvAllowed "SchedulingAgent" "book_appointment") w1)))) as ->.
    { rewrite scheduling_node_continues. unfold scheduling_authorized_calls.
      unfold mbind at 1, M_bind. rewrite get_service_slots_call. simpl. rewrite Hslots.
      unfold mbind at 1, M_bind. rewrite Hslot. simpl.
      unfold mbind at 1, M_bind.
      rewrite (getitem_present _ _ v) by (by rewrite !lookup_insert_ne).
      unfold mbind at 1, M_bind. rewrite wrapper_allowed by reflexivity.
      unfold scoped, book_appointment. simpl. unfold mbind, M_bind. by rewrite Hstatus. }
    split; [done | simpl; by rewrite <- !app_assoc].
Qed.

(** X10. Against the mock API the scheduling node succeeds for every
    state whose vehicle is a string: the slot it takes is the second of the
    four, "11:00 AM", the booking status it stores is "confirmed", the
    denial of the demonstration call is stored under "error_message", and no
    other field changes. *)
Theorem scheduling_node_with_mock_api (py_hash : option value → Z)
    (state : WorkflowState) (w : World) (vehicle_id : string) :
  served_by_mock_api py_hash w →
  state !! "vehicle_id" = Some (VStr vehicle_id) →
  ∃ state' w',
    scheduling_node state w = (Return state', w')
    ∧ state' !! "appointment_slot" = Some (VStr "11:00 AM")
    ∧ state' !! "booking_status" = Some (VStr "confirmed")
    ∧ state' !! "error_message" = Some (VStr payment_history_denial)
    ∧ (∀ key : string, key ∉ ["appointment_slot"; "booking_status"; "error_message"]%string →
         state' !! key = state !! key)
    ∧ rev (trace w') = rev (trace w) ++ scheduling_events.
Proof.
  intros [Hslots Hbook] Hv. eexists _, _. split.
  - rewrite scheduling_node_continues.
    apply (scheduling_authorized_calls_run _ _ (VStr vehicle_id) mock_slots
             "11:00 AM" "confirmed").
    + by rewrite lookup_insert_ne.
    + simpl. rewrite Hslots. reflexivity.
    + reflexivity.
    + simpl. erewrite Hbook; [|reflexivity]. reflexivity.
  - repeat split; try (by simplify_map_eq).
    + intros key Hkey. rewrite !lookup_insert_ne; [done|..];
        intros <-; apply Hkey; repeat first [left | right].
    + simpl. by rewrite <- !app_assoc.
Qed.

(** X11. The mock booking endpoint replies exactly when the vehicle in
    the body is hashable (absent, a string or a number; for a JSON object
    the handler raises TypeError).  Every reply confirms, also for a body
    without a vehicle or a slot, holds a status and a booking id and nothing
    else, and the booking id is "BK" followed by a number from 0 to 9999
    whatever the hash is. *)
Theorem mock_api_replies (py_hash : option value → Z) (data : gmap string value) :
  (mock_api.book_appointment py_hash data = None
     ↔ ∃ row, data !! "vehicle_id" = Some (VDict row))
  ∧ (∀ reply, mock_api.book_appointment py_hash data = Some reply →
       reply !! "status" = Some "confirmed"%string
       ∧ (∃ n : Z, 0 ≤ n < 10000 ∧ reply !! "booking_id" = Some ("BK" +:+ py_str_int n))
       ∧ (∀ key : string, key ≠ "status"%string → key ≠ "booking_id"%string →
            reply !! key = None)).
Proof.
  unfold mock_api.book_appointment. split.
  - destruct (data !! "vehicle_id") as [[s|n|row]|]; split; try discriminate;
      try (intros [row' [=]]); eauto.
  - intros reply Hreply.
    assert (reply = list_to_map
              [ ("status", "confirmed");
                ("booking_id",
                 "BK" +:+ py_str_int (Z.abs (py_hash (data !! "vehicle_id")) mod 10000))
              ]%string) as ->.
    { destruct (data !! "vehicle_id") as [[s|n|row]|]; congruence. }
    split; [by simplify_map_eq|]. split.
    + exists (Z.abs (py_hash (data !! "vehicle_id")) mod 10000).
      split; [apply Z.mod_pos_bound; lia | by simplify_map_eq].
    + intros key H1 H2. by simplify_map_eq.
Qed.

Lemma scheduling_node_failures_witness :
  scheduler_get_slots one_slot_world = Some ["09:00 AM"%string]
  ∧ (length ["09:00 AM"%string] < 2)%nat
  ∧ (scheduling_node engaged_state one_slot_world).1 = Raise IndexError
  ∧ rev (trace (scheduling_node engaged_state one_slot_world).2)
      = rev (trace one_slot_world) ++ slot_fetch_events.
Proof.
  assert (Hslots : scheduler_get_slots one_slot_world = Some ["09:00 AM"%string])
    by reflexivity.
  assert (Hlen : (length ["09:00 AM"%string] < 2)%nat) by (simpl; lia).
  split; [exact Hslots|]. split; [exact Hlen|].
  exact (proj1 (proj2 (scheduling_node_failures engaged_state one_slot_world)) _ Hslots Hlen).
Defined.

Lemma scheduling_node_with_mock_api_witness :
  served_by_mock_api (fun _ => -4711) (mock_served_world (fun _ => -4711))
  ∧ engaged_state !! "vehicle_id" = Some (VStr "veh_007")
  ∧ ∃ state' w',
      scheduling_node engaged_state (mock_served_world (fun _ => -4711)) = (Return state', w')
      ∧ state' !! "booking_status" = Some (VStr "confirmed").
Proof.
  assert (Hserved : served_by_mock_api (fun _ => -4711) (mock_served_world (fun _ => -4711))).
  { split; [reflexivity|]. intros v slot reply Hreply. simpl. by rewrite Hreply. }
  assert (Hv : engaged_state !! "vehicle_id" = Some (VStr "veh_007")) by reflexivity.
  split; [exact Hserved|]. split; [exact Hv|].
  destruct (scheduling_node_with_mock_api _ engaged_state _ _ Hserved Hv)
    as (state' & w' & Hrun & _ & Hstatus & _).
  exists state', w'. split; [exact Hrun | exact Hstatus].
Defined.

(** ** The priority score and the routing *)

(** X12. For a severity whose fivefold is within the 64-bit integers
    (so that safety_score * 5 does not wrap), a highway driver (factor 9) is
    routed to scheduling exactly when the severity is 8 or more, and any
    other driver (factor 5) exactly when it is 9 or more; a highway driver
    with severity 7 scores exactly 80 and is declined. *)
Theorem drps_routing_threshold (s : Z) :
  int64 (s * 5) →
  (80 < drps_formula s 9 ↔ 8 ≤ s)
  ∧ (80 < drps_formula s 5 ↔ 9 ≤ s)
  ∧ drps_formula 7 9 = 80.
Proof.
  intros Hs.
  assert (Hfix : ∀ a : Z, -10 ≤ a ≤ 10 → int64 (a * 5)) by (unfold int64; lia).
  split; [|split; [|reflexivity]].
  - split.
    + intros Hhigh. destruct (Z.le_gt_cases 8 s) as [|Hlow]; [done|].
      pose proof (drps_formula_mono s 7 9 Hs (Hfix 7 ltac:(lia)) ltac:(lia)) as Hle.
      change (drps_formula 7 9) with 80 in Hle. lia.
    + intros Hge.
      pose proof (drps_formula_mono 8 s 9 (Hfix 8 ltac:(lia)) Hs Hge) as Hle.
      change (drps_formula 8 9) with 85 in Hle. lia.
  - split.
    + intros Hhigh. destruct (Z.le_gt_cases 9 s) as [|Hlow]; [done|].
      pose proof (drps_formula_mono s 8 5 Hs (Hfix 8 ltac:(lia)) ltac:(lia)) as Hle.
      change (drps_formula 8 5) with 77 in Hle. lia.
    + intros Hge.
      pose proof (drps_formula_mono 9 s 5 (Hfix 9 ltac:(lia)) Hs Hge) as Hle.
      change (drps_formula 9 5) with 82 in Hle. lia.
Qed.

Lemma drps_routing_threshold_witness :
  int64 (10 * 5) ∧ (80 < drps_formula 10 9 ↔ 8 ≤ 10).
Proof.
  assert (H : int64 (10 * 5)) by (unfold int64; lia).
  split; [exact H | exact (proj1 (drps_routing_threshold 10 H))].
Defined.

(** ** The feedback node *)

Lemma rows_where_set_health_score (vehicle_id : value) (score : Z) (rows : list CustomerRow) :
  rows_where c_vehicle_id vehicle_id (map (set_health_score vehicle_id score) rows)
    = map (set_health_score vehicle_id score) (rows_where c_vehicle_id vehicle_id rows).
Proof.
  unfold rows_where. induction rows as [|r rows IH]; [done|].
  simpl. rewrite !filter_cons.
  assert (Hid : c_vehicle_id (set_health_score vehicle_id score r) = c_vehicle_id r).
  { unfold set_health_score. by destruct (str_eq_value (c_vehicle_id r) vehicle_id). }
  rewrite Hid. destruct (decide (str_eq_value (c_vehicle_id r) vehicle_id = true));
    simpl; by rewrite IH.
Qed.

Lemma set_health_score_twice (vehicle_id : value) (a b : Z) (rows : list CustomerRow) :
  map (set_health_score vehicle_id b) (map (set_health_score vehicle_id a) rows)
    = map (set_health_score vehicle_id b) rows.
Proof.
  rewrite map_map. apply map_ext. intros r. unfold set_health_score.
  destruct (str_eq_value (c_vehicle_id r) vehicle_id) eqn:E; simpl; by rewrite E.
Qed.

(** X13. The feedback node is not idempotent.  Run twice in a row on the
    same state it adds 50 both times (int64 sums), so, when the first row's
    score plus 100 is still a 64-bit integer, the rows of the vehicle end at
    that score plus 100, while the insight is the same both times: the
    maintenance log is never written, so the reported count does not
    move. *)
Theorem feedback_node_twice_adds_100
    (state : WorkflowState) (w : World) (vehicle_id : string)
    (r : RcaRow) (rs : list RcaRow) (c : CustomerRow) (cs : list CustomerRow) :
  as_read w →
  state !! "vehicle_id" = Some (VStr vehicle_id) →
  rca_records w = r :: rs →
  rows_where c_vehicle_id (VStr vehicle_id) (customer_profiles w) = c :: cs →
  health_score c + 100 < 2 ^ 63 →
  ∃ state1 w1 w2,
    feedback_and_insight_node state w = (Return state1, w1)
    ∧ feedback_and_insight_node state1 w1 = (Return state1, w2)
    ∧ customer_profiles w1
        = map (set_health_score (VStr vehicle_id) (health_score c + 50)) (customer_profiles w)
    ∧ customer_profiles w2
        = map (set_health_score (VStr vehicle_id) (health_score c + 100)) (customer_profiles w)
    ∧ maintenance_logs w2 = maintenance_logs w.
Proof.
  intros Hread Hv Hrca Hrows Hfit.
  pose proof (as_read_health_score _ _ _ _ Hread Hrows) as Hint.
  assert (H50 : wrap64 (health_score c + 50) = health_score c + 50)
    by (apply wrap64_id; unfold int64 in *; lia).
  pose proof (feedback_and_insight_node_run state w vehicle_id r rs c cs Hv Hrca Hrows)
    as Hfirst.
  rewrite H50 in Hfirst.
  assert (Hc : str_eq_value (c_vehicle_id c) (VStr vehicle_id) = true).
  { assert (Hin : c ∈ rows_where c_vehicle_id (VStr vehicle_id) (customer_profiles w))
      by (rewrite Hrows; left).
    unfold rows_where in Hin. by apply list_elem_of_filter in Hin as [Hin _]. }
  eexists _, _, _. split; [exact Hfirst|]. split.
  - erewrite (feedback_and_insight_node_run _ _ vehicle_id r rs
                (set_health_score (VStr vehicle_id) (health_score c + 50) c)
                (map (set_health_score (VStr vehicle_id) (health_score c + 50)) cs)).
    + rewrite insert_insert_eq. reflexivity.
    + by rewrite lookup_insert_ne.
    + exact Hrca.
    + simpl. by rewrite rows_where_set_health_score, Hrows.
  - split; [reflexivity|]. split; [|reflexivity].
    simpl. rewrite set_health_score_twice. f_equal. f_equal.
    unfold set_health_score at 1. rewrite Hc. simpl.
    replace (health_score c + 100) with (health_score c + 50 + 50) by lia.
    apply wrap64_id. unfold int64 in *. lia.
Qed.

Lemma feedback_node_twice_adds_100_witness :
  as_read demo_world
  ∧ scheduled_state !! "vehicle_id" = Some (VStr "veh_007")
  ∧ rca_records demo_world = rca
  ∧ rows_where c_vehicle_id (VStr "veh_007") (customer_profiles demo_world) = [neha]
  ∧ health_score neha + 100 < 2 ^ 63
  ∧ ∃ state1 w1 w2,
      feedback_and_insight_node scheduled_state demo_world = (Return state1, w1)
      ∧ feedback_and_insight_node state1 w1 = (Return state1, w2)
      ∧ customer_profiles w2
          = map (set_health_score (VStr "veh_007") (health_score neha + 100)) profiles.
Proof.
  assert (Hv : scheduled_state !! "vehicle_id" = Some (VStr "veh_007")) by reflexivity.
  assert (Hrca : rca_records demo_world = rca) by reflexivity.
  assert (Hrows : rows_where c_vehicle_id (VStr "veh_007") (customer_profiles demo_world)
                  = [neha]) by (vm_compute; reflexivity).
  assert (Hfit : health_score neha + 100 < 2 ^ 63) by (vm_compute; reflexivity).
  split; [exact demo_world_as_read|]. split; [exact Hv|]. split; [exact Hrca|].
  split; [exact Hrows|]. split; [exact Hfit|].
  destruct (feedback_node_twice_adds_100 scheduled_state demo_world "veh_007"
              _ _ _ _ demo_world_as_read Hv Hrca Hrows Hfit)
    as (state1 & w1 & w2 & H1 & H2 & _ & H4 & _).
  exists state1, w1, w2. split; [exact H1|]. split; [exact H2 | exact H4].
Defined.

(** X14. For a state whose vehicle is a string, when there is no
    root-cause record, or no profile row of the vehicle, the feedback node
    raises IndexError after reading the three files and before writing: the
    profiles are as they were and no write is among the events. *)
Theorem feedback_node_fails_before_writing
    (state : WorkflowState) (w : World) (vehicle_id : string) :
  state !! "vehicle_id" = Some (VStr vehicle_id) →
  rca_records w = [] ∨ rows_where c_vehicle_id (VStr vehicle_id) (customer_profiles w) = [] →
  (feedback_and_insight_node state w).1 = Raise IndexError
  ∧ customer_profiles (feedback_and_insight_node state w).2 = customer_profiles w
  ∧ rev (trace (feedback_and_insight_node state w).2) = rev (trace w) ++ feedback_read_events.
Proof.
  intros Hv Hmissing.
  assert (feedback_and_insight_node state w
          = (Raise IndexError,
             emit EvExit (emit (EvCap (CapReadCsv customers_csv))
               (emit (EvCap (CapReadCsv maintenance_csv)) (emit (EvCap (CapReadCsv rca_csv))
                  (emit (EvAllowed "FeedbackAgent" "read_csv") w)))))) as ->.
  { unfold feedback_and_insight_node. unfold mbind at 1, M_bind.
    rewrite (getitem_present _ _ _ _ Hv).
    unfold mbind at 1, M_bind. rewrite wrapper_allowed by reflexivity.
    unfold scoped, perform_rca_and_update_score, mbind, M_bind, read_csv. simpl.
    destruct (rca_records w) as [|r rs]; simpl; [reflexivity|].
    destruct Hmissing as [|Hrows]; [discriminate|]. by rewrite Hrows. }
  repeat split. simpl. by rewrite <- !app_assoc.
Qed.

Lemma feedback_node_fails_before_writing_witness :
  scheduled_state !! "vehicle_id" = Some (VStr "veh_007")
  ∧ (rca_records no_rca_world = []
     ∨ rows_where c_vehicle_id (VStr "veh_007") (customer_profiles no_rca_world) = [])
  ∧ (feedback_and_insight_node scheduled_state no_rca_world).1 = Raise IndexError.
Proof.
  assert (Hv : scheduled_state !! "vehicle_id" = Some (VStr "veh_007")) by reflexivity.
  assert (Hm : rca_records no_rca_world = []
     ∨ rows_where c_vehicle_id (VStr "veh_007") (customer_profiles no_rca_world) = [])
    by (left; reflexivity).
  split; [exact Hv|]. split; [exact Hm|].
  exact (proj1 (feedback_node_fails_before_writing scheduled_state no_rca_world _ Hv Hm)).
Defined.

(** ** Whole runs *)

Lemma execute_from_conditional (fuel : nat) (g : StateGraph) (current next label : string)
    (node : WorkflowState → M WorkflowState)
    (router : WorkflowState → M (string * WorkflowState)) (path_map : gmap string string)
    (state state' state'' : WorkflowState) (w w' w'' : World) :
  nodes g !! current = Some node →
  node state w = (Return state', w') →
  edges g !! current = Some (ConditionalEdges router path_map) →
  router state' w' = (Return (label, state''), w'') →
  path_map !! label = Some next →
  execute_from (S fuel) g current state w =
    if String.eqb next END
    then Some {| visited := [current]; ending := Completed state''; world_after := w'' |}
    else r ← execute_from fuel g next state'' w'';
         Some {| visited := current :: visited r; ending := ending r;
                 world_after := world_after r |}.
Proof.
  intros Hnode Hrun Hedge Hrouter Hmap. cbn [execute_from]. unfold M in *.
  rewrite Hnode, Hrun, Hedge, Hrouter, Hmap. reflexivity.
Qed.

Lemma workflow_node_data_analysis :
  nodes workflow !! "data_analysis" = Some data_analysis_node.
Proof. reflexivity. Qed.

Lemma workflow_node_diagnosis : nodes workflow !! "diagnosis" = Some diagnosis_node.
Proof. reflexivity. Qed.

Lemma workflow_node_customer_engagement :
  nodes workflow !! "customer_engagement" = Some customer_engagement_node.
Proof. reflexivity. Qed.

Lemma workflow_node_handle_decline :
  nodes workflow !! "handle_decline" = Some handle_declined_node.
Proof. reflexivity. Qed.

Lemma workflow_edge_data_analysis : edges workflow !! "data_analysis" = Some (Edge "diagnosis").
Proof. reflexivity. Qed.

Lemma workflow_edge_diagnosis :
  edges workflow !! "diagnosis" = Some (Edge "customer_engagement").
Proof. reflexivity. Qed.

Lemma workflow_edge_customer_engagement :
  edges workflow !! "customer_engagement"
    = Some (ConditionalEdges should_schedule
              (list_to_map [("continue_to_scheduling"%string, "scheduling"%string);
                            ("handle_decline"%string, "handle_decline"%string)])).
Proof. reflexivity. Qed.

Lemma workflow_edge_handle_decline : edges workflow !! "handle_decline" = Some (Edge END).
Proof. reflexivity. Qed.

(** The first three nodes on files that let them succeed. *)
Lemma intake_to_engagement (state : WorkflowState) (w : World)
    (r : TelemetryRow) (rest : list TelemetryRow) (p : CustomerRow) (s : SafetyRow) :
  let vid := VStr (t_vehicle_id r) in
  let cat := checked_component (safety_impact_scores w) (model_answer w vid r) in
  let drps := drps_formula (safety_impact_score s) (customer_factor_of p) in
  let message := llm_content w (OutreachPrompt (VStr (customer_name p)) (VStr cat)
                                  (brake_fluid_pressure_psi r) (brake_pad_thickness_mm r)) in
  let st1 := analysed state r p in
  let st2 := diagnosed st1 cat drps in
  let st3 := engaged st2 message in
  low_pressure (vehicle_telematics w) = r :: rest →
  rows_where c_vehicle_id vid (customer_profiles w) = [p] →
  rows_where component (VStr cat) (safety_impact_scores w) = [s] →
  ∃ w1 w2 w3,
    data_analysis_node state w = (Return st1, w1)
    ∧ diagnosis_node st1 w1 = (Return st2, w2)
    ∧ customer_engagement_node st2 w2 = (Return st3, w3)
    ∧ rev (trace w3)
        = rev (trace w) ++ data_analysis_events ++ diagnosis_events ++ engagement_events
    ∧ customer_profiles w3 = customer_profiles w
    ∧ rca_records w3 = rca_records w
    ∧ maintenance_logs w3 = maintenance_logs w
    ∧ scheduler_get_slots w3 = scheduler_get_slots w
    ∧ scheduler_book_slot w3 = scheduler_book_slot w.
Proof.
  intros vid cat drps message st1 st2 st3 Hlow Hrows Hs.
  pose (w1 := emit (EvCap (CapReadCsv customers_csv))
                (emit EvExit (emit (EvCap (CapReadCsv telematics_csv))
                   (emit (EvAllowed "DataAnalysisAgent" "read_csv") w)))).
  pose (w2 := emit EvExit
                (after_diagnosis_effects (emit (EvAllowed "DiagnosisAgent" "llm_invoke") w1))).
  pose (w3 := emit EvExit (emit (EvCap CapLlmInvoke)
                (emit (EvAllowed "CustomerEngagementAgent" "llm_invoke") w2))).
  assert (Hv1 : st1 !! "vehicle_id" = Some vid)
    by (unfold st1, analysed; by simplify_map_eq).
  assert (Ha1 : st1 !! "anomaly_data" = Some (VDict r))
    by (unfold st1, analysed; by simplify_map_eq).
  assert (Hn1 : st1 !! "customer_name" = Some (VStr (customer_name p)))
    by (unfold st1, analysed; by simplify_map_eq).
  exists w1, w2, w3. split; [|split; [|split]].
  - rewrite (data_analysis_node_run _ _ _ _ Hlow). fold vid. rewrite Hrows. reflexivity.
  - exact (diagnosis_node_run st1 w1 vid r s p Hv1 Ha1 Hs Hrows ltac:(done)).
  - apply (customer_engagement_node_run st2 w2 (VStr (customer_name p)) (VStr cat) drps r);
      unfold st2, diagnosed; by simplify_map_eq.
  - repeat split. simpl. by rewrite <- !app_assoc.
Qed.

Lemma execute_from_intake (fuel : nat) (state st1 st2 st3 st3' : WorkflowState)
    (w w1 w2 w3 : World) (label next : string) :
  data_analysis_node state w = (Return st1, w1) →
  diagnosis_node st1 w1 = (Return st2, w2) →
  customer_engagement_node st2 w2 = (Return st3, w3) →
  should_schedule st3 w3 = (Return (label, st3'), w3) →
  (label = "continue_to_scheduling"%string ∧ next = "scheduling"%string
   ∨ label = "handle_decline"%string ∧ next = "handle_decline"%string) →
  execute_from (S (S (S fuel))) workflow "data_analysis" state w =
    r ← execute_from fuel workflow next st3' w3;
    Some {| visited := "data_analysis"%string :: "diagnosis"%string
                       :: "customer_engagement"%string :: visited r;
            ending := ending r; world_after := world_after r |}.
Proof.
  intros H1 H2 H3 Hrouter Hnext.
  rewrite (execute_from_edge _ _ _ _ _ _ _ _ _
             workflow_node_data_analysis H1 workflow_edge_data_analysis).
  replace (String.eqb "diagnosis" END) with false by reflexivity.
  rewrite (execute_from_edge _ _ _ _ _ _ _ _ _
             workflow_node_diagnosis H2 workflow_edge_diagnosis).
  replace (String.eqb "customer_engagement" END) with false by reflexivity.
  rewrite (execute_from_conditional _ _ _ next label _ _ _ _ _ _ _ _ _
             workflow_node_customer_engagement H3 workflow_edge_customer_engagement Hrouter).
  - destruct Hnext as [[_ ->]|[_ ->]];
      (replace (String.eqb _ END) with false by reflexivity);
      by destruct (execute_from fuel workflow _ st3' w3).
  - by destruct Hnext as [[-> ->]|[-> ->]].
Qed.

Lemma execute_from_scheduling (state : WorkflowState) (w : World)
    (vehicle_id : string) (slots : list string) (slot status : string)
    (r : RcaRow) (rs : list RcaRow) (c : CustomerRow) (cs : list CustomerRow) :
  state !! "vehicle_id" = Some (VStr vehicle_id) →
  scheduler_get_slots w = Some slots →
  slots !! 1%nat = Some slot →
  scheduler_book_slot w (VStr vehicle_id) slot !! "status" = Some status →
  rca_records w = r :: rs →
  rows_where c_vehicle_id (VStr vehicle_id) (customer_profiles w) = c :: cs →
  ∃ w',
    (∀ fuel : nat,
       execute_from (S (S fuel)) workflow "scheduling" state w
         = Some {| visited := ["scheduling"; "feedback_and_insight"]%string;
                   ending := Completed
                     (<["final_insight" :=
                         VStr (insight_text (rca_id r)
                                 (Z.of_nat (length (with_dtc_code "C0204"
                                                      (maintenance_logs w)))))]>
                        (<["booking_status" := VStr status]>
                           (<["appointment_slot" := VStr slot]>
                              (<["error_message" := VStr payment_history_denial]> state))));
                   world_after := w' |})
    ∧ customer_profiles w'
        = map (set_health_score (VStr vehicle_id) (wrap64 (health_score c + 50))) (customer_profiles w)
    ∧ rev (trace w') = rev (trace w) ++ scheduling_events ++ feedback_events.
Proof.
  intros Hv Hslots Hslot Hstatus Hrca Hrows.
  pose (w1 := emit EvExit (emit (EvCap (CapHttpPost book_slot_url))
         (emit (EvAllowed "SchedulingAgent" "book_appointment")
            (emit EvExit (emit (EvCap (CapHttpGet get_slots_url))
               (emit (EvAllowed "SchedulingAgent" "get_service_slots")
                  (emit (EvDenied "SchedulingAgent" "get_payment_history") w))))))).
  assert (Hnode : scheduling_node state w
    = (Return (<["booking_status" := VStr status]>
                 (<["appointment_slot" := VStr slot]>
                    (<["error_message" := VStr payment_history_denial]> state))), w1)).
  { rewrite scheduling_node_continues.
    apply (scheduling_authorized_calls_run _ _ (VStr vehicle_id) slots slot status); try done.
    by rewrite lookup_insert_ne. }
  assert (Hv' : <["booking_status" := VStr status]>
                  (<["appointment_slot" := VStr slot]>
                     (<["error_message" := VStr payment_history_denial]> state))
                  !! "vehicle_id" = Some (VStr vehicle_id)) by (by simplify_map_eq).
  pose proof (feedback_and_insight_node_run _ w1 vehicle_id r rs c cs Hv' Hrca Hrows)
    as Hfeedback.
  eexists. split; [|split].
  - intros fuel.
    rewrite (execute_from_edge _ _ _ _ _ _ _ _ _
               workflow_node_scheduling Hnode workflow_edge_scheduling).
    replace (String.eqb "feedback_and_insight" END) with false by reflexivity.
    rewrite (execute_from_edge _ _ _ _ _ _ _ _ _
               workflow_node_feedback Hfeedback workflow_edge_feedback).
    reflexivity.
  - reflexivity.
  - simpl. by rewrite <- !app_assoc.
Qed.

(** X15. A whole run that books.  On files read without a missing cell
    and with 64-bit integer scores, when the telemetry holds a low-pressure
    reading, its vehicle has exactly one profile row, the severity table has
    exactly one row for the component kept, the score is above 80, the
    backend offers at least two slots and answers the booking with a status,
    and a root-cause record is on file, then the run from the entry point
    goes through data_analysis, diagnosis, customer_engagement, scheduling
    and feedback_and_insight and ends there; the final state holds the
    vehicle, the component, the score, the answer 'yes', the second slot,
    the backend's status, the recorded denial and the insight, and the
    health score of the vehicle has become the int64 sum of the old score
    and 50.  The score is the one the code computes, in int64 and binary64
    arithmetic. *)
Theorem run_books_when_score_above_80 (state : WorkflowState) (w : World)
    (r : TelemetryRow) (rest : list TelemetryRow) (p : CustomerRow) (s : SafetyRow)
    (slots : list string) (slot status : string) (rc : RcaRow) (rcs : list RcaRow) :
  let vid := VStr (t_vehicle_id r) in
  let cat := checked_component (safety_impact_scores w) (model_answer w vid r) in
  let drps := drps_formula (safety_impact_score s) (customer_factor_of p) in
  as_read w →
  low_pressure (vehicle_telematics w) = r :: rest →
  rows_where c_vehicle_id vid (customer_profiles w) = [p] →
  rows_where component (VStr cat) (safety_impact_scores w) = [s] →
  80 < drps →
  scheduler_get_slots w = Some slots →
  slots !! 1%nat = Some slot →
  scheduler_book_slot w vid slot !! "status" = Some status →
  rca_records w = rc :: rcs →
  ∃ final w',
    (∀ fuel : nat, (5 ≤ fuel)%nat →
       execute fuel workflow state w
         = Some {| visited := ["data_analysis"; "diagnosis"; "customer_engagement";
                               "scheduling"; "feedback_and_insight"]%string;
                   ending := Completed final; world_after := w' |})
    ∧ final !! "vehicle_id" = Some vid
    ∧ final !! "diagnosis" = Some (VStr cat)
    ∧ final !! "drps_score" = Some (VInt drps)
    ∧ final !! "customer_response" = Some (VStr "yes")
    ∧ final !! "appointment_slot" = Some (VStr slot)
    ∧ final !! "booking_status" = Some (VStr status)
    ∧ final !! "error_message" = Some (VStr payment_history_denial)
    ∧ final !! "final_insight"
        = Some (VStr (insight_text (rca_id rc)
                        (Z.of_nat (length (with_dtc_code "C0204" (maintenance_logs w))))))
    ∧ customer_profiles w'
        = map (set_health_score vid (wrap64 (health_score p + 50))) (customer_profiles w)
    ∧ rev (trace w')
        = rev (trace w) ++ data_analysis_events ++ diagnosis_events ++ engagement_events
            ++ scheduling_events ++ feedback_events.
Proof.
  intros vid cat drps _ Hlow Hrows Hs Hhigh Hslots Hslot Hstatus Hrca.
  destruct (intake_to_engagement state w r rest p s Hlow Hrows Hs)
    as (w1 & w2 & w3 & H1 & H2 & H3 & Htrace & Hprofiles & Hrca3 & Hlogs & Hslots3 & Hbook3).
  fold vid cat drps in H1, H2, H3.
  set (st3 := engaged (diagnosed (analysed state r p) cat drps)
                (llm_content w (OutreachPrompt (VStr (customer_name p)) (VStr cat)
                                  (brake_fluid_pressure_psi r) (brake_pad_thickness_mm r))))
    in *.
  assert (Hscore : st3 !! "drps_score" = Some (VInt drps))
    by (unfold st3, engaged, diagnosed; by simplify_map_eq).
  pose proof (should_schedule_run st3 w3 drps Hscore) as Hrouter.
  replace (80 <? drps) with true in Hrouter by (symmetry; apply Z.ltb_lt; lia).
  assert (Hv : <["customer_response" := VStr "yes"]> st3 !! "vehicle_id" = Some vid)
    by (unfold st3, engaged, diagnosed, analysed; by simplify_map_eq).
  assert (Hslots' : scheduler_get_slots w3 = Some slots) by congruence.
  assert (Hstatus' : scheduler_book_slot w3 vid slot !! "status" = Some status)
    by (by rewrite Hbook3).
  assert (Hrca' : rca_records w3 = rc :: rcs) by congruence.
  assert (Hrows' : rows_where c_vehicle_id vid (customer_profiles w3) = [p])
    by (by rewrite Hprofiles).
  destruct (execute_from_scheduling (<["customer_response" := VStr "yes"]> st3) w3
              (t_vehicle_id r) slots slot status rc rcs p [] Hv Hslots' Hslot Hstatus' Hrca'
              Hrows')
    as (w' & Hrun & Hprofiles' & Htrace').
  eexists _, w'. split.
  - intros fuel Hfuel.
    destruct fuel as [|[|[|[|[|fuel]]]]]; try lia.
    unfold execute. change (entry_point workflow) with "data_analysis"%string.
    rewrite (execute_from_intake _ _ _ _ _ _ _ _ _ _ "continue_to_scheduling" "scheduling"
               H1 H2 H3 Hrouter) by (by left).
    rewrite Hrun. reflexivity.
  - rewrite Hprofiles', Hprofiles, Htrace', Htrace, Hlogs, <- !app_assoc.
    unfold st3, engaged, diagnosed, analysed.
    repeat split; by simplify_map_eq.
Qed.

Lemma run_books_when_score_above_80_witness :
  as_read demo_world
  ∧ low_pressure (vehicle_telematics demo_world) = [flagged_reading]
  ∧ rows_where c_vehicle_id (VStr "veh_007") (customer_profiles demo_world) = [neha]
  ∧ rows_where component (VStr "Brakes") (safety_impact_scores demo_world)
      = [ {| component := "Brakes"; safety_impact_score := 10 |} ]
  ∧ 80 < drps_formula 10 (customer_factor_of neha)
  ∧ ∃ final w',
      execute 5 workflow ∅ demo_world
        = Some {| visited := ["data_analysis"; "diagnosis"; "customer_engagement";
                              "scheduling"; "feedback_and_insight"]%string;
                  ending := Completed final; world_after := w' |}
      ∧ final !! "booking_status" = Some (VStr "confirmed")
      ∧ final !! "drps_score" = Some (VInt 95).
Proof.
  assert (Hlow : low_pressure (vehicle_telematics demo_world) = [flagged_reading])
    by (vm_compute; reflexivity).
  assert (Hrows : rows_where c_vehicle_id (VStr "veh_007") (customer_profiles demo_world)
                  = [neha]) by (vm_compute; reflexivity).
  assert (Hs : rows_where component (VStr "Brakes") (safety_impact_scores demo_world)
      = [ {| component := "Brakes"; safety_impact_score := 10 |} ])
    by (vm_compute; reflexivity).
  assert (Hhigh : 80 < drps_formula 10 (customer_factor_of neha))
    by (vm_compute; reflexivity).
  split; [exact demo_world_as_read|]. do 4 (split; [assumption|]).
  destruct (run_books_when_score_above_80 ∅ demo_world flagged_reading [] neha
              {| component := "Brakes"; safety_impact_score := 10 |}
              mock_slots "11:00 AM" "confirmed" _ _ demo_world_as_read Hlow Hrows Hs Hhigh
              ltac:(reflexivity) ltac:(reflexivity) ltac:(reflexivity) ltac:(reflexivity))
    as (final & w' & Hrun & _ & _ & Hscore & _ & _ & Hstatus & _).
  exists final, w'. split; [apply Hrun; lia|]. split; [exact Hstatus | exact Hscore].
Defined.

(** X16. A whole run that declines.  With the same files, when the score
    that the code computes is at most 80 the run goes through data_analysis, diagnosis,
    customer_engagement and handle_decline and ends there: the booking
    status is the fixed follow-up text, no slot and no insight are written,
    the profiles keep their health scores, and the events are those of the
    first three nodes, so the backend was never called and no file was
    written. *)
Theorem run_declines_when_score_at_most_80 (state : WorkflowState) (w : World)
    (r : TelemetryRow) (rest : list TelemetryRow) (p : CustomerRow) (s : SafetyRow) :
  let vid := VStr (t_vehicle_id r) in
  let cat := checked_component (safety_impact_scores w) (model_answer w vid r) in
  let drps := drps_formula (safety_impact_score s) (customer_factor_of p) in
  as_read w →
  low_pressure (vehicle_telematics w) = r :: rest →
  rows_where c_vehicle_id vid (customer_profiles w) = [p] →
  rows_where component (VStr cat) (safety_impact_scores w) = [s] →
  drps ≤ 80 →
  ∃ final w',
    (∀ fuel : nat, (4 ≤ fuel)%nat →
       execute fuel workflow state w
         = Some {| visited := ["data_analysis"; "diagnosis"; "customer_engagement";
                               "handle_decline"]%string;
                   ending := Completed final; world_after := w' |})
    ∧ final !! "booking_status" = Some (VStr "Declined - Follow-up Scheduled")
    ∧ final !! "diagnosis" = Some (VStr cat)
    ∧ final !! "drps_score" = Some (VInt drps)
    ∧ final !! "appointment_slot" = state !! "appointment_slot"
    ∧ final !! "final_insight" = state !! "final_insight"
    ∧ final !! "error_message" = state !! "error_message"
    ∧ customer_profiles w' = customer_profiles w
    ∧ rev (trace w')
        = rev (trace w) ++ data_analysis_events ++ diagnosis_events ++ engagement_events.
Proof.
  intros vid cat drps _ Hlow Hrows Hs Hlowscore.
  destruct (intake_to_engagement state w r rest p s Hlow Hrows Hs)
    as (w1 & w2 & w3 & H1 & H2 & H3 & Htrace & Hprofiles & _).
  fold vid cat drps in H1, H2, H3.
  set (st3 := engaged (diagnosed (analysed state r p) cat drps)
                (llm_content w (OutreachPrompt (VStr (customer_name p)) (VStr cat)
                                  (brake_fluid_pressure_psi r) (brake_pad_thickness_mm r))))
    in *.
  assert (Hscore : st3 !! "drps_score" = Some (VInt drps))
    by (unfold st3, engaged, diagnosed; by simplify_map_eq).
  pose proof (should_schedule_run st3 w3 drps Hscore) as Hrouter.
  replace (80 <? drps) with false in Hrouter by (symmetry; apply Z.ltb_ge; lia).
  eexists _, w3. split.
  - intros fuel Hfuel.
    destruct fuel as [|[|[|[|fuel]]]]; try lia.
    unfold execute. change (entry_point workflow) with "data_analysis"%string.
    rewrite (execute_from_intake _ _ _ _ _ _ _ _ _ _ "handle_decline" "handle_decline"
               H1 H2 H3 Hrouter) by (by right).
    rewrite (execute_from_edge fuel workflow "handle_decline" END handle_declined_node
               _ _ _ _ workflow_node_handle_decline eq_refl workflow_edge_handle_decline).
    reflexivity.
  - rewrite Hprofiles, Htrace. unfold st3, engaged, diagnosed, analysed.
    repeat split; by simplify_map_eq.
Qed.

Lemma run_declines_when_score_at_most_80_witness :
  as_read low_priority_world
  ∧ low_pressure (vehicle_telematics low_priority_world) = [flagged_reading]
  ∧ rows_where c_vehicle_id (VStr "veh_007") (customer_profiles low_priority_world) = [neha]
  ∧ rows_where component (VStr "Infotainment") (safety_impact_scores low_priority_world)
      = [ {| component := "Infotainment"; safety_impact_score := 1 |} ]
  ∧ drps_formula 1 (customer_factor_of neha) ≤ 80
  ∧ ∃ final w',
      execute 4 workflow ∅ low_priority_world
        = Some {| visited := ["data_analysis"; "diagnosis"; "customer_engagement";
                              "handle_decline"]%string;
                  ending := Completed final; world_after := w' |}
      ∧ final !! "booking_status" = Some (VStr "Declined - Follow-up Scheduled").
Proof.
  assert (Hlow : low_pressure (vehicle_telematics low_priority_world) = [flagged_reading])
    by (vm_compute; reflexivity).
  assert (Hrows : rows_where c_vehicle_id (VStr "veh_007") (customer_profiles low_priority_world)
                  = [neha]) by (vm_compute; reflexivity).
  assert (Hs : rows_where component (VStr "Infotainment")
                 (safety_impact_scores low_priority_world)
      = [ {| component := "Infotainment"; safety_impact_score := 1 |} ])
    by (vm_compute; reflexivity).
  assert (Hscore : drps_formula 1 (customer_factor_of neha) ≤ 80)
    by (vm_compute; discriminate).
  split; [exact low_priority_world_as_read|]. do 4 (split; [assumption|]).
  destruct (run_declines_when_score_at_most_80 ∅ low_priority_world flagged_reading [] neha
              {| component := "Infotainment"; safety_impact_score := 1 |}
              low_priority_world_as_read Hlow Hrows Hs Hscore)
    as (final & w' & Hrun & Hstatus & _).
  exists final, w'. split; [apply Hrun; lia | exact Hstatus].
Defined.

(** ** The generated telemetry *)

Lemma filter_all {A} (P : A → Prop) `{∀ x, Decision (P x)} (l : list A) :
  Forall P l → filter P l = l.
Proof.
  induction 1 as [|x l Hx _ IH]; [done|]. by rewrite filter_cons_True, IH.
Qed.

Lemma generated_pressure_bounds (noise_p noise_t : nat → nat → Z) (ts : nat → nat → string)
    (i j : nat) :
  generate_data.pressure_noise_ok noise_p →
  (brake_fluid_pressure_psi (generate_data.reading noise_p noise_t ts i j) < 45000
   ↔ i = 7%nat ∧ (j < 30)%nat).
Proof.
  intros Hnoise. specialize (Hnoise i j). simpl. unfold generate_data.pressure.
  destruct (Nat.eqb_spec i 7) as [->|Hi]; simpl.
  - destruct (Nat.ltb_spec j 30); simpl; split; intros; try lia.
  - split; [lia | intros [? _]; done].
Qed.

(** X17. On the telemetry that generate_data.py writes, whatever the
    random noise within its range, the readings below 450 psi are exactly
    the first thirty minutes of vehicle 7, in the order written.  So the
    telemetry analysis always selects the reading of veh_007 at minute 0,
    whose base pressure is 300 psi and which carries the code 'C0204'. *)
Theorem generated_telemetry_flags_vehicle_7
    (noise_p noise_t : nat → nat → Z) (ts : nat → nat → string) (w : World) :
  generate_data.pressure_noise_ok noise_p →
  vehicle_telematics w = generate_data.telematics noise_p noise_t ts →
  low_pressure (vehicle_telematics w)
    = generate_data.reading noise_p noise_t ts 7 <$> seq 0 30
  ∧ (analyze_telemetry_data w).1 = Return (generate_data.reading noise_p noise_t ts 7 0)
  ∧ t_vehicle_id (generate_data.reading noise_p noise_t ts 7 0) = "veh_007"%string
  ∧ dtc_code (generate_data.reading noise_p noise_t ts 7 0) = Some "C0204"%string
  ∧ 29800 ≤ brake_fluid_pressure_psi (generate_data.reading noise_p noise_t ts 7 0) ≤ 30200.
Proof.
  intros Hnoise Hfile.
  assert (Hother : ∀ i l, i ≠ 7%nat →
            low_pressure (generate_data.reading noise_p noise_t ts i <$> l) = []).
  { intros i l Hi. unfold low_pressure. apply filter_none, Forall_fmap, Forall_forall.
    intros j _ Hlow. apply (generated_pressure_bounds _ _ _ _ _ Hnoise) in Hlow. tauto. }
  assert (Hseven : low_pressure (generate_data.reading noise_p noise_t ts 7 <$> seq 0 100)
                   = generate_data.reading noise_p noise_t ts 7 <$> seq 0 30).
  { change (seq 0 100) with (seq 0 30 ++ seq 30 70). rewrite fmap_app.
    unfold low_pressure. rewrite filter_app.
    rewrite filter_all, (proj2 (filter_none _ _)); [by rewrite app_nil_r|..].
    - apply Forall_fmap, Forall_forall. intros j Hj Hlow.
      apply (generated_pressure_bounds _ _ _ _ _ Hnoise) in Hlow.
      apply elem_of_seq in Hj. lia.
    - apply Forall_fmap, Forall_forall. intros j Hj.
      apply (generated_pressure_bounds _ _ _ _ _ Hnoise).
      apply elem_of_seq in Hj. lia. }
  assert (Hlow : low_pressure (vehicle_telematics w)
                 = generate_data.reading noise_p noise_t ts 7 <$> seq 0 30).
  { rewrite Hfile. unfold generate_data.telematics, generate_data.vehicles.
    change (seq 1 10) with [1; 2; 3; 4; 5; 6; 7; 8; 9; 10]%nat.
    rewrite !bind_cons. change (@mbind list _ _ _ _ []) with (@nil TelemetryRow).
    unfold low_pressure in *.
    rewrite !filter_app, Hseven, !Hother by done. by rewrite app_nil_r. }
  split; [exact Hlow|]. split.
  - rewrite analyze_telemetry_data_run, Hlow. reflexivity.
  - split; [reflexivity|]. split; [reflexivity|].
    simpl. pose proof (Hnoise 7%nat 0%nat). change (generate_data.pressure 7 0) with 300. lia.
Qed.

Lemma generated_telemetry_flags_vehicle_7_witness :
  generate_data.pressure_noise_ok (fun _ _ => 0)
  ∧ vehicle_telematics generated_world
      = generate_data.telematics (fun _ _ => 0) (fun _ _ => 0)
          (fun _ _ => "2025-10-01 10:00:00"%string)
  ∧ (analyze_telemetry_data generated_world).1
      = Return (generate_data.reading (fun _ _ => 0) (fun _ _ => 0)
                  (fun _ _ => "2025-10-01 10:00:00"%string) 7 0).
Proof.
  assert (Hnoise : generate_data.pressure_noise_ok (fun _ _ => 0))
    by (intros i j; lia).
  assert (Hfile : vehicle_telematics generated_world
      = generate_data.telematics (fun _ _ => 0) (fun _ _ => 0)
          (fun _ _ => "2025-10-01 10:00:00"%string)) by reflexivity.
  split; [exact Hnoise|]. split; [exact Hfile|].
  exact (proj1 (proj2 (generated_telemetry_flags_vehicle_7 _ _ _ _ Hnoise Hfile))).
Defined.

(** ** Cleaning the model's answer *)

Lemma remove_char_absent (c : ascii) (s : string) :
  c ∉ list_ascii_of_string (remove_char c s).
Proof.
  induction s as [|d s IH]; simpl; [by intros H; inversion H|].
  destruct (Ascii.eqb_spec c d) as [->|Hne]; [done|].
  simpl. intros [->|Hin]%elem_of_cons; [done | by apply IH].
Qed.

Lemma remove_char_keeps_absent (c d : ascii) (s : string) :
  c ∉ list_ascii_of_string s → c ∉ list_ascii_of_string (remove_char d s).
Proof.
  induction s as [|e s IH]; simpl; [done|].
  intros Hnin. apply not_elem_of_cons in Hnin as [Hne Hnin].
  destruct (Ascii.eqb d e); [by apply IH|].
  simpl. apply not_elem_of_cons. split; [done | by apply IH].
Qed.

(** X18. Whatever the model replies, the answer that the diagnosis
    compares with the table holds no single and no double quote, and
    neither does the component it keeps: a component whose name in the table
    contains a quote can never be diagnosed. *)
Theorem diagnosis_answer_has_no_quotes (w : World) (vehicle_id : value) (row : TelemetryRow) :
  let answer := model_answer w vehicle_id row in
  let cat := checked_component (safety_impact_scores w) answer in
  (single_quote ∉ list_ascii_of_string answer)
  ∧ (double_quote ∉ list_ascii_of_string answer)
  ∧ (single_quote ∉ list_ascii_of_string cat)
  ∧ (double_quote ∉ list_ascii_of_string cat).
Proof.
  intros answer cat.
  assert (H1 : single_quote ∉ list_ascii_of_string answer)
    by apply remove_char_keeps_absent, remove_char_absent.
  assert (H2 : double_quote ∉ list_ascii_of_string answer) by apply remove_char_absent.
  assert (H3 : single_quote ∉ list_ascii_of_string cat).
  { unfold cat, checked_component. destruct (negb _); [|done].
    intros Hin. vm_compute in Hin.
    repeat (apply elem_of_cons in Hin as [Hin|Hin]; [discriminate|]). inversion Hin. }
  assert (H4 : double_quote ∉ list_ascii_of_string cat).
  { unfold cat, checked_component. destruct (negb _); [|done].
    intros Hin. vm_compute in Hin.
    repeat (apply elem_of_cons in Hin as [Hin|Hin]; [discriminate|]). inversion Hin. }
  repeat split; done.
Qed.

Lemma generate_xai_customer_message_ignores_score_witness :
  (∀ n, VStr "high" ≠ VInt n)
  ∧ generate_xai_customer_message (VStr "Neha") (VStr "high") (VDict flagged_reading)
      (VStr "Brakes") demo_world = (Raise TypeError, demo_world).
Proof.
  assert (H : ∀ n, VStr "high" ≠ VInt n) by (intros n; discriminate).
  split; [exact H|].
  exact (proj1 (proj2 (generate_xai_customer_message_ignores_score
                         (VStr "Neha") (VStr "Brakes") (VDict flagged_reading) demo_world))
           (VStr "high") H).
Defined.

Lemma mock_api_replies_witness :
  mock_api.book_appointment (fun _ => -4711) ∅
    = Some (list_to_map [("status", "confirmed"); ("booking_id", "BK4711")]%string)
  ∧ (list_to_map [("status", "confirmed"); ("booking_id", "BK4711")]%string
       : gmap string string) !! "status" = Some "confirmed"%string.
Proof.
  assert (H : mock_api.book_appointment (fun _ => -4711) ∅
    = Some (list_to_map [("status", "confirmed"); ("booking_id", "BK4711")]%string))
    by reflexivity.
  split; [exact H|].
  exact (proj1 (proj2 (mock_api_replies (fun _ => -4711) ∅) _ H)).
Defined.
